(** * NumberFormatter: a shallow embedding of [NumberFormatter.py]

    The development follows the source file top to bottom: the locale
    registry [LOCALE_CONFIG], the helpers [group_thousands], [format_plain],
    [format_currency] and [format_scientific], the dispatcher
    [format_number] and the request boundary [format_endpoint].

    Python values are modelled as follows.
    - [str] is [string].  The characters that matter to the control flow of
      the program (digits, signs, separators, the style names) are ASCII;
      the only other characters are those of the currency symbols, which are
      only ever concatenated, so a string is kept as its UTF-8 bytes.
    - [float] is [spec_float], the IEEE 754 model of the standard library,
      read at binary64.
    - [int] is [Z]; [int | None] is [option Z].
    - a raised exception is the [Raise] branch of [result]. *)

From Stdlib Require Import ZArith Lia Ascii String.
From Stdlib Require Import SpecFloat.
From stdpp Require Import gmap strings list fin_maps.

Local Open Scope Z_scope.

(** ** Exceptions *)

Inductive exn :=
  | ValueError (msg : string)
  | TypeError (msg : string)
  | OverflowError (msg : string).

Inductive result (A : Type) :=
  | Ok (a : A)
  | Raise (e : exn).
Arguments Ok {A} a.
Arguments Raise {A} e.

Definition bind {A B} (r : result A) (k : A -> result B) : result B :=
  match r with
  | Ok a => k a
  | Raise e => Raise e
  end.

Notation "'let*' x ':=' r 'in' k" := (bind r (fun x => k))
  (at level 10, x name, r at level 100, k at level 200).

(** ** Operations of [str] used by the program *)

Module Str.

Definition chars : string -> list ascii := list_ascii_of_string.
Definition of_chars : list ascii -> string := string_of_list_ascii.

(** [int_part[::-1]] *)
Definition reversed (s : string) : string := of_chars (reverse (chars s)).

(** [s[i:j]] for [0 <= i <= j] *)
Definition slice (s : string) (i j : nat) : string :=
  of_chars (take (j - i) (drop i (chars s))).

(** [sep.join(parts)] *)
Fixpoint join (sep : string) (parts : list string) : string :=
  match parts with
  | [] => ""
  | [p] => p
  | p :: ps => p +:+ sep +:+ join sep ps
  end.

(** [c in s] for a one-character [c] *)
Fixpoint contains (c : ascii) (s : string) : bool :=
  match s with
  | EmptyString => false
  | String a s' => if Ascii.eqb a c then true else contains c s'
  end.

(** [s.split(c)] for a one-character [c] *)
Fixpoint split (c : ascii) (s : string) : list string :=
  match s with
  | EmptyString => [""]
  | String a s' =>
      if Ascii.eqb a c then "" :: split c s'
      else match split c s' with
           | p :: ps => String a p :: ps
           | [] => [String a ""]
           end
  end.

(** [s.replace(c, new, 1)] for a one-character [c] *)
Fixpoint replace_first (c : ascii) (new : string) (s : string) : string :=
  match s with
  | EmptyString => ""
  | String a s' =>
      if Ascii.eqb a c then new +:+ s' else String a (replace_first c new s')
  end.

(** [s.startswith(c)] for a one-character [c] *)
Definition startswith (c : ascii) (s : string) : bool :=
  match s with
  | String a _ => Ascii.eqb a c
  | EmptyString => false
  end.

(** [s[1:]] *)
Definition tail (s : string) : string :=
  match s with
  | String _ s' => s'
  | EmptyString => ""
  end.

Definition is_upper (a : ascii) : bool :=
  (65 <=? nat_of_ascii a)%nat && (nat_of_ascii a <=? 90)%nat.

Definition lower_char (a : ascii) : ascii :=
  if is_upper a then ascii_of_nat (nat_of_ascii a + 32) else a.

(** every character of the string is an ASCII character *)
Fixpoint is_ascii (s : string) : bool :=
  match s with
  | EmptyString => true
  | String a s' => (nat_of_ascii a <? 128)%nat && is_ascii s'
  end.

(** [s.lower()] for a string of ASCII characters: the letters [A]..[Z] are
    changed.  On other strings Python also lowers the cased letters outside
    ASCII, which are left alone here; none of them becomes a letter of one
    of the seven style names, so whether the result is one of these names is
    the same, but the result itself is that of Python on ASCII strings
    only. *)
Fixpoint lower (s : string) : string :=
  match s with
  | EmptyString => ""
  | String a s' => String (lower_char a) (lower s')
  end.

Definition is_digit (a : ascii) : bool :=
  (48 <=? nat_of_ascii a)%nat && (nat_of_ascii a <=? 57)%nat.

(** the string is made of ASCII decimal digits only *)
Fixpoint all_digits (s : string) : bool :=
  match s with
  | EmptyString => true
  | String a s' => is_digit a && all_digits s'
  end.

(** [c * n] *)
Fixpoint repeat (a : ascii) (n : nat) : string :=
  match n with
  | O => ""
  | S n' => String a (repeat a n')
  end.

End Str.

(** ** Configuration *)

Record locale_cfg := {
  decimal_sep : string;
  thousands_sep : string;
  currency_symbol : string;
  currency_symbol_position : string;
  currency_symbol_space : bool;
}.

Definition US : locale_cfg := {|
  decimal_sep := ".";
  thousands_sep := ",";
  currency_symbol := "$";
  currency_symbol_position := "before";
  currency_symbol_space := false;
|}.

Definition EU : locale_cfg := {|
  decimal_sep := ",";
  thousands_sep := ".";
  currency_symbol := "€";
  currency_symbol_position := "after";
  currency_symbol_space := true;
|}.

Definition UK : locale_cfg := {|
  decimal_sep := ".";
  thousands_sep := ",";
  currency_symbol := "£";
  currency_symbol_position := "before";
  currency_symbol_space := false;
|}.

Definition LOCALE_CONFIG : gmap string locale_cfg :=
  <["US" := US]> (<["EU" := EU]> (<["UK" := UK]> ∅)).

(** ** The host's numbers

    [float] values and the two conversions of [str.format] that the program
    asks for, ["{:.Nf}"] and ["{:.Ne}"], as CPython 3.11 on a 64-bit platform
    does them.  The exact binary value of the float is printed, correctly
    rounded to the requested number of digits, ties going to the even digit.
    The precision is written into the format string from an [int]: the host
    refuses to write an [int] of more than 4300 digits, a negative precision
    leaves the format specification without one, and a precision above the
    C [int] range is refused. *)

Abbreviation float := spec_float.

Module Host.

(** [x < 0] *)
Definition lt_zero (x : float) : bool := SFltb x (S754_zero false).

Definition is_finite (x : float) : bool :=
  match x with
  | S754_zero _ | S754_finite _ _ _ => true
  | S754_infinity _ | S754_nan => false
  end.

(** the value is one that a binary64 float can have: 53 bits of mantissa,
    exponents up to 1023, subnormal numbers down to [2^-1074] *)
Definition is_binary64 (x : float) : bool := valid_binary 53 1024 x.

Definition digit_char (d : Z) : ascii := ascii_of_nat (48 + Z.to_nat d).

(** the [k] low decimal digits of [n], most significant first *)
Fixpoint digits_fixed (k : nat) (n : Z) : string :=
  match k with
  | O => ""
  | S k' => String (digit_char ((n / 10 ^ Z.of_nat k') mod 10)) (digits_fixed k' n)
  end.

Fixpoint num_digits_go (fuel : nat) (n : Z) : nat :=
  match fuel with
  | O => 1
  | S fuel' => if n <? 10 then 1%nat else S (num_digits_go fuel' (n / 10))
  end.

(** the number of decimal digits of [n >= 0]; one for [0] *)
Definition num_digits (n : Z) : nat := num_digits_go (Z.to_nat (Z.log2 n)) n.

(** the decimal numeral of [n >= 0] *)
Definition int_digits (n : Z) : string := digits_fixed (num_digits n) n.

(** the nearest integer to [num / den], the even one of two equally near *)
Definition round_half_even (num den : Z) : Z :=
  let q := num / den in
  match 2 * (num mod den) ?= den with
  | Lt => q
  | Gt => q + 1
  | Eq => if Z.even q then q else q + 1
  end.

(** [m * 2^e * 10^k] as a fraction of two positive integers *)
Definition scaled (m : positive) (e k : Z) : Z * Z :=
  (Zpos m * 2 ^ Z.max e 0 * 10 ^ Z.max k 0,
   2 ^ Z.max (- e) 0 * 10 ^ Z.max (- k) 0).

Definition rounded (m : positive) (e k : Z) : Z :=
  let '(num, den) := scaled m e k in round_half_even num den.

Definition sign_str (s : bool) : string := if s then "-" else "".

(** [n / 10^p] written with [p] digits after the point *)
Definition fixed_repr (n p : Z) : string :=
  int_digits (n / 10 ^ p)
  +:+ (if 0 <? p then "." +:+ digits_fixed (Z.to_nat p) n else "").

Definition missing_precision : exn :=
  ValueError "Format specifier missing precision".

Definition INT_MAX : Z := 2147483647.
Definition SSIZE_MAX : Z := 9223372036854775807.

(** an [int] of more than 4300 digits is not converted to text *)
Definition int_max_str_digits : Z := 4300.
Definition int_str_limit : Z := 10 ^ int_max_str_digits.

(** the precision of a format string [f"{{:.{n}f}}"], once the string is
    built from the [int] [n] and its specification is read *)
Definition precision_field (n : Z) : result Z :=
  if int_str_limit <=? Z.abs n then
    Raise (ValueError "Exceeds the limit (4300 digits) for integer string conversion; use sys.set_int_max_str_digits() to increase the limit")
  else if n <? 0 then Raise missing_precision
  else if SSIZE_MAX <? n then
    Raise (ValueError "Too many decimal digits in format string")
  else if INT_MAX <? n then Raise (ValueError "precision too big")
  else Ok n.

(** [f"{{:.{precision}f}}".format(x)] *)
Definition format_f (precision : Z) (x : float) : result string :=
  let* precision := precision_field precision in
  Ok match x with
     | S754_nan => "nan"
     | S754_infinity s => sign_str s +:+ "inf"
     | S754_zero s => sign_str s +:+ fixed_repr 0 precision
     | S754_finite s m e =>
         sign_str s +:+ fixed_repr (rounded m e precision) precision
     end.

Fixpoint shift_up (fuel : nat) (num den : Z) : nat :=
  match fuel with
  | O => 1
  | S fuel' =>
      if den <=? num * 10 then 1%nat else S (shift_up fuel' (num * 10) den)
  end.

(** the decimal exponent of [num / den]: the [E] with
    [10^E <= num / den < 10^(E+1)] *)
Definition exponent10 (num den : Z) : Z :=
  if den <=? num then Z.of_nat (num_digits (num / den)) - 1
  else - Z.of_nat (shift_up (Z.to_nat (Z.log2 den)) num den).

(** mantissa digits (as an integer of [p + 1] digits) and decimal exponent
    of [m * 2^e] *)
Definition sci_parts (m : positive) (e p : Z) : Z * Z :=
  let '(num, den) := scaled m e 0 in
  let E := exponent10 num den in
  let N := rounded m e (p - E) in
  if N =? 10 ^ (p + 1) then (10 ^ p, E + 1) else (N, E).

Definition mantissa_repr (n p : Z) : string :=
  match digits_fixed (S (Z.to_nat p)) n with
  | String d rest => String d (if 0 <? p then "." +:+ rest else "")
  | EmptyString => ""
  end.

Definition exp_repr (E : Z) : string :=
  let ds := int_digits (Z.abs E) in
  (if E <? 0 then "-" else "+")
  +:+ (if (String.length ds <? 2)%nat then "0" +:+ ds else ds).

(** [f"{{:.{precision}e}}".format(x)] *)
Definition format_e (precision : Z) (x : float) : result string :=
  let* precision := precision_field precision in
  Ok match x with
     | S754_nan => "nan"
     | S754_infinity s => sign_str s +:+ "inf"
     | S754_zero s =>
         sign_str s +:+ mantissa_repr 0 precision +:+ "e" +:+ exp_repr 0
     | S754_finite s m e =>
         let '(n, E) := sci_parts m e precision in
         sign_str s +:+ mantissa_repr n precision +:+ "e" +:+ exp_repr E
     end.

End Host.

(** ** The host's conversions from text

    [float(text)] and [int(text)] for a text of ASCII characters, as
    CPython 3.11 does them: surrounding white space is dropped, an underscore
    may stand between two digits, and the decimal numeral that remains is
    rounded to the nearest binary64 value, ties to even.  [inf], [infinity]
    and [nan] are accepted by [float] in any case; [int] refuses a numeral
    of more than 4300 digits.  On a text with other characters Python also
    reads the decimal digits and the white space of other scripts, which is
    not modelled: what is proved of a conversion is proved for ASCII text. *)

Module Parse.

Definition is_space (a : ascii) : bool :=
  let n := nat_of_ascii a in
  ((9 <=? n) && (n <=? 13) || (n =? 32))%nat.

Fixpoint lstrip (s : string) : string :=
  match s with
  | String a s' => if is_space a then lstrip s' else s
  | EmptyString => ""
  end.

Definition strip (s : string) : string :=
  Str.reversed (lstrip (Str.reversed (lstrip s))).

(** underscores are allowed after a digit and before a digit only *)
Fixpoint drop_underscores (prev : ascii) (s : string) : option string :=
  match s with
  | EmptyString => if Ascii.eqb prev "_" then None else Some ""
  | String a s' =>
      if Ascii.eqb a "_" then
        if Str.is_digit prev then drop_underscores a s' else None
      else if Ascii.eqb prev "_" && negb (Str.is_digit a) then None
      else String a <$> drop_underscores a s'
  end.

Fixpoint span_digits (s : string) : string * string :=
  match s with
  | String a s' =>
      if Str.is_digit a then
        let '(ds, rest) := span_digits s' in (String a ds, rest)
      else ("", s)
  | EmptyString => ("", "")
  end.

Fixpoint digits_value_acc (acc : Z) (s : string) : Z :=
  match s with
  | String a s' => digits_value_acc (acc * 10 + (Z.of_nat (nat_of_ascii a) - 48)) s'
  | EmptyString => acc
  end.

(** the number written by a string of decimal digits *)
Definition digits_value (s : string) : Z := digits_value_acc 0 s.

Definition take_sign (s : string) : bool * string :=
  match s with
  | String "-" s' => (true, s')
  | String "+" s' => (false, s')
  | _ => (false, s)
  end.

(** digits, optional point and digits, optional exponent: the pair [(D, E)]
    of a numeral worth [D * 10^E] *)
Definition parse_decimal (s : string) : option (Z * Z) :=
  let '(ip, r1) := span_digits s in
  let '(fp, r2) :=
    match r1 with
    | String "." r => span_digits r
    | _ => ("", r1)
    end in
  if bool_decide (ip = "") && bool_decide (fp = "") then None
  else
    let D := digits_value (ip +:+ fp) in
    let fl := Z.of_nat (String.length fp) in
    match r2 with
    | EmptyString => Some (D, - fl)
    | String c r =>
        if Ascii.eqb c "e" || Ascii.eqb c "E" then
          let '(es, r3) := take_sign r in
          let '(ed, r4) := span_digits r3 in
          if bool_decide (ed = "") || negb (bool_decide (r4 = "")) then None
          else
            let v := digits_value ed in
            Some (D, (if es then - v else v) - fl)
        else None
    end.

(** the binary64 value nearest to [num / den], for [0 <= num], [0 < den] *)
Definition binary64_of_ratio (s : bool) (num den : Z) : float :=
  if num =? 0 then S754_zero s
  else
    let e0 := Z.log2 num - Z.log2 den - 53 in
    let q0 := (num * 2 ^ Z.max (- e0) 0) / (den * 2 ^ Z.max e0 0) in
    let e1 := if 2 ^ 53 <=? q0 then e0 + 1 else e0 in
    let e := Z.max e1 (-1074) in
    let m :=
      Host.round_half_even (num * 2 ^ Z.max (- e) 0) (den * 2 ^ Z.max e 0) in
    if m =? 0 then S754_zero s
    else
      let '(m, e) := if m =? 2 ^ 53 then (2 ^ 52, e + 1) else (m, e) in
      if 971 <? e then S754_infinity s else S754_finite s (Z.to_pos m) e.

Definition parse_number (s : string) : option float :=
  let '(neg, body) := take_sign s in
  '(D, E) ← parse_decimal body;
  Some (binary64_of_ratio neg (D * 10 ^ Z.max E 0) (10 ^ Z.max (- E) 0)).

Definition parse_inf_or_nan (s : string) : option float :=
  let '(neg, body) := take_sign s in
  let body := Str.lower body in
  if bool_decide (body ∈ ["inf"; "infinity"]) then Some (S754_infinity neg)
  else if bool_decide (body = "nan") then Some S754_nan
  else None.

(** [float(text)] for ASCII [text]; the message of the error, which the
    program never reads, also quotes the text *)
Definition float_of_str (text : string) : result float :=
  match
    t ← drop_underscores "000" (strip text);
    match parse_number t with
    | Some x => Some x
    | None => parse_inf_or_nan t
    end
  with
  | Some x => Ok x
  | None => Raise (ValueError "could not convert string to float")
  end.

(** [float(n)] for an [int] *)
Definition float_of_int (n : Z) : result float :=
  match binary64_of_ratio (n <? 0) (Z.abs n) 1 with
  | S754_infinity _ => Raise (OverflowError "int too large to convert to float")
  | x => Ok x
  end.

(** [int(text)] for ASCII [text]; the messages of the errors, which the
    program never reads, also quote the text or count its digits *)
Definition int_of_str (text : string) : result Z :=
  let '(neg, body) := take_sign (strip text) in
  match drop_underscores "000" body with
  | Some ds =>
      if Str.all_digits ds && negb (bool_decide (ds = "")) then
        if Host.int_max_str_digits <? Z.of_nat (String.length ds) then
          Raise (ValueError "Exceeds the limit (4300 digits) for integer string conversion")
        else Ok (if neg then - digits_value ds else digits_value ds)
      else Raise (ValueError "invalid literal for int() with base 10")
  | None => Raise (ValueError "invalid literal for int() with base 10")
  end.

End Parse.

(** ** Formatting helpers *)

(** [range(0, n, 3)] *)
Definition range3 (n : nat) : list nat :=
  (fun k => 3 * k)%nat <$> seq 0 ((n + 2) / 3).

Definition group_thousands (integer_part sep : string) : string :=
  if (String.length integer_part <=? 3)%nat then integer_part
  else
    let rev := Str.reversed integer_part in
    let groups :=
      (fun i => Str.slice rev i (i + 3)) <$> range3 (String.length rev) in
    Str.join sep (Str.reversed <$> reverse groups).

(** [a, b = parts] *)
Definition unpack2 (parts : list string) : result (string * string) :=
  match parts with
  | [a; b] => Ok (a, b)
  | _ :: _ :: _ :: _ => Raise (ValueError "too many values to unpack (expected 2)")
  | _ =>
      Raise (ValueError ("not enough values to unpack (expected 2, got "
                         +:+ Host.int_digits (Z.of_nat (length parts)) +:+ ")"))
  end.

Definition format_plain (value : float) (cfg : locale_cfg) (decimals : Z)
    (grouping : bool) : result string :=
  let sign := if Host.lt_zero value then "-" else "" in
  let abs_val := SFabs value in
  let* number_str := Host.format_f decimals abs_val in  (* fmt.format(abs_val) *)
  let* parts :=
    (if Str.contains "." number_str then unpack2 (Str.split "." number_str)
     else Ok (number_str, "")) in
  let '(int_part, frac_part) := parts in
  let int_part :=
    if grouping then group_thousands int_part (thousands_sep cfg)
    else int_part in
  let result :=
    if 0 <? decimals then int_part +:+ decimal_sep cfg +:+ frac_part
    else int_part in
  Ok (sign +:+ result).

Definition format_currency (value : float) (cfg : locale_cfg) (decimals : Z)
    : result string :=
  let* base := format_plain value cfg decimals true in
  let '(sign, base) :=
    if Str.startswith "-" base then ("-", Str.tail base) else ("", base) in
  let symbol := currency_symbol cfg in
  let before := bool_decide (currency_symbol_position cfg = "before") in
  let space := if currency_symbol_space cfg then " " else "" in
  let formatted_number :=
    if before then symbol +:+ space +:+ base
    else base +:+ space +:+ symbol in
  Ok (sign +:+ formatted_number).

Definition format_scientific (value : float) (cfg : locale_cfg) (digits : Z)
    : result string :=
  let* raw := Host.format_e digits value in
  let decimal_sep := decimal_sep cfg in
  if bool_decide (decimal_sep <> ".") then
    let* parts := unpack2 (Str.split "e" raw) in
    let '(mantissa, exp) := parts in
    let mantissa := Str.replace_first "." decimal_sep mantissa in
    Ok (mantissa +:+ "e" +:+ exp)
  else Ok raw.

Definition unknown_locale (locale : string) : exn :=
  ValueError ("Unknown locale: " +:+ locale).

Definition unknown_style (style : string) : exn :=
  ValueError ("Unknown style: " +:+ style).

Definition format_number (value : float) (locale style : string)
    (decimals : option Z) : result string :=
  match LOCALE_CONFIG !! locale with
  | None => Raise (unknown_locale locale)
  | Some cfg =>
      let style := Str.lower style in
      if bool_decide (style = "currency") then
        format_currency value cfg (default 2 decimals)
      else if bool_decide (style ∈ ["comma"; "grouped"]) then
        format_plain value cfg (default 0 decimals) true
      else if bool_decide (style ∈ ["round"; "rounded"]) then
        format_plain value cfg (default 0 decimals) false
      else if bool_decide (style ∈ ["sci"; "scientific"]) then
        format_scientific value cfg 3
      else Raise (unknown_style style)
  end.

(** ** Flask endpoint

    A request is what the endpoint reads from it.  For [GET] these are the
    four query arguments, all text.  For [POST] it is the decoded JSON body:
    [None] stands for a body that is missing, is not JSON or is empty; the
    fields [locale] and [style] are text and [decimals] is an integer or
    text, as the endpoint expects them. *)

Inductive py_obj :=
  | PyStr (s : string)
  | PyFloat (x : float)
  | PyInt (n : Z)
  | PyBool (b : bool)
  | PyContainer.

Inductive decimals_arg :=
  | DecInt (n : Z)
  | DecStr (s : string).

Record json_body := {
  j_value : option py_obj;
  j_locale : option string;
  j_style : option string;
  j_decimals : option decimals_arg;
}.

Inductive request :=
  | GET (value locale style decimals : option string)
  | POST (data : option json_body).

Inductive response :=
  | Ok200 (value : float) (locale style : string) (decimals : option Z)
      (formatted : string)
  | Error400 (error : string)
  | Error500 (e : exn).

(** [float(value)] *)
Definition py_float (value : py_obj) : result float :=
  match value with
  | PyStr s => Parse.float_of_str s
  | PyFloat x => Ok x
  | PyInt n => Parse.float_of_int n
  | PyBool b => Parse.float_of_int (if b then 1 else 0)
  | PyContainer =>
      Raise (TypeError "float() argument must be a string or a real number")
  end.

(** [{}] *)
Definition empty_body : json_body :=
  {| j_value := None; j_locale := None; j_style := None; j_decimals := None |}.

(** the four values read from the request, or the early error response of
    the [POST] branch *)
Definition read_request (request : request)
    : response + (option py_obj * string * string * option Z) :=
  match request with
  | GET value locale style decimals =>
      let decimals :=
        d ← decimals;
        match Parse.int_of_str d with
        | Ok n => Some n
        | Raise _ => None
        end in
      inr (PyStr <$> value, default "US" locale, default "currency" style,
           decimals)
  | POST data =>
      let data := default empty_body data in
      let value := j_value data in
      let locale := default "US" (j_locale data) in
      let style := default "currency" (j_style data) in
      match j_decimals data with
      | Some (DecStr d) =>
          match Parse.int_of_str d with
          | Ok n => inr (value, locale, style, Some n)
          | Raise _ => inl (Error400 "decimals must be an integer")
          end
      | Some (DecInt n) => inr (value, locale, style, Some n)
      | None => inr (value, locale, style, None)
      end
  end.

Definition format_endpoint (request : request) : response :=
  match read_request request with
  | inl early => early
  | inr (value, locale, style, decimals) =>
      match value with
      | None => Error400 "value is required"
      | Some value =>
          match py_float value with
          | Raise (ValueError _) | Raise (TypeError _) =>
              Error400 "value must be numeric"
          | Raise e => Error500 e
          | Ok value =>
              match format_number value locale style decimals with
              | Raise (ValueError msg) => Error400 msg
              | Raise e => Error500 e
              | Ok formatted => Ok200 value locale style decimals formatted
              end
          end
      end
  end.

(** [list(LOCALE_CONFIG.keys())] *)
Definition list_locales : list string := ["US"; "EU"; "UK"].

(** ** Auxiliary definitions used to state the properties *)

(** the groups that [group_thousands] cuts out of the reversed digits *)
Definition chunks3 (r : list ascii) : list (list ascii) :=
  (fun i => take 3 (drop i r)) <$> range3 (length r).

(** [|x| * 10^p] as a fraction of integers, for a finite [x] *)
Definition scaled_abs (x : float) (p : Z) : Z * Z :=
  match x with
  | S754_finite _ m e => Host.scaled m e p
  | _ => (0, 1)
  end.

(** the integer that [|x| * 10^p] is rounded to *)
Definition rounded_abs (x : float) (p : Z) : Z :=
  let '(num, den) := scaled_abs x p in Host.round_half_even num den.

Definition sign_of (value : float) : string :=
  if Host.lt_zero value then "-" else "".

Definition grouped_if (grouping : bool) (cfg : locale_cfg) (int_part : string)
    : string :=
  if grouping then group_thousands int_part (thousands_sep cfg) else int_part.

(** the currency symbol put around a rendered number *)
Definition with_symbol (cfg : locale_cfg) (number : string) : string :=
  let space := if currency_symbol_space cfg then " " else "" in
  if bool_decide (currency_symbol_position cfg = "before")
  then currency_symbol cfg +:+ space +:+ number
  else number +:+ space +:+ currency_symbol cfg.



(** the style names that the dispatcher knows, and those among them that
    take a number of decimals *)
Definition recognized_styles : list string :=
  ["currency"; "grouped"; "comma"; "rounded"; "round"; "scientific"; "sci"].

Definition decimal_styles : list string :=
  ["currency"; "grouped"; "comma"; "rounded"; "round"].

(** the texts of the request are made of ASCII characters *)
Definition ascii_opt (text : option string) : bool :=
  from_option Str.is_ascii true text.

Definition ascii_request (request : request) : bool :=
  match request with
  | GET value locale style decimals =>
      ascii_opt value && ascii_opt locale && ascii_opt style
      && ascii_opt decimals
  | POST None => true
  | POST (Some body) =>
      match j_value body with Some (PyStr s) => Str.is_ascii s | _ => true end
      && ascii_opt (j_locale body) && ascii_opt (j_style body)
      && match j_decimals body with
         | Some (DecStr d) => Str.is_ascii d
         | _ => true
         end
  end.

(** the error kinds of the specification, as the program reports them *)
Definition UnknownLocale (locale : string) : exn := unknown_locale locale.
Definition UnknownStyle (style : string) : exn := unknown_style style.
Definition MissingValue : response := Error400 "value is required".
Definition InvalidValue : response := Error400 "value must be numeric".
Definition InvalidDecimals : response := Error400 "decimals must be an integer".

(** the binary64 values of some decimal literals *)
Module Lit.
Definition f_0_5 : float := S754_finite false 4503599627370496 (-53).
Definition f_0_125 : float := S754_finite false 4503599627370496 (-55).
Definition f_2_345 : float := S754_finite false 5280470563091907 (-51).
Definition f_5 : float := S754_finite false 5629499534213120 (-50).
Definition f_1234_5 : float := S754_finite false 5429388417957888 (-42).
Definition f_1234_5678 : float := S754_finite false 5429686605511341 (-42).
Definition f_1234567 : float := S754_finite false 5302424889720832 (-32).
Definition f_neg_0_4 : float := S754_finite true 7205759403792794 (-54).
Definition f_neg_42 : float := S754_finite true 5910974510923776 (-47).
Definition f_neg_1234_5 : float := S754_finite true 5429388417957888 (-42).
Definition f_neg_zero : float := S754_zero true.
Definition inf : float := S754_infinity false.
Definition nan : float := S754_nan.
End Lit.

(** * Properties *)

(** ** The literals *)

Example literals_parse :
  Parse.float_of_str "0.5" = Ok Lit.f_0_5
  /\ Parse.float_of_str "0.125" = Ok Lit.f_0_125
  /\ Parse.float_of_str "2.345" = Ok Lit.f_2_345
  /\ Parse.float_of_str "5" = Ok Lit.f_5
  /\ Parse.float_of_str "1234.5" = Ok Lit.f_1234_5
  /\ Parse.float_of_str "1234.5678" = Ok Lit.f_1234_5678
  /\ Parse.float_of_str "1234567" = Ok Lit.f_1234567
  /\ Parse.float_of_str "-0.4" = Ok Lit.f_neg_0_4
  /\ Parse.float_of_str "-42" = Ok Lit.f_neg_42
  /\ Parse.float_of_str "-1234.5" = Ok Lit.f_neg_1234_5
  /\ Parse.float_of_str "-0.0" = Ok Lit.f_neg_zero
  /\ Parse.float_of_str "inf" = Ok Lit.inf
  /\ Parse.float_of_str "nan" = Ok Lit.nan.
Proof. vm_compute. repeat split. Qed.

Example group_thousands_7 : group_thousands "1234567" "," = "1,234,567".
Proof. reflexivity. Qed.

(** ** Strings *)

Ltac str_simpl :=
  repeat first
    [ progress simpl
    | progress change (String ?a ?s +:+ ?t) with (String a (s +:+ t))
    | progress change ("" +:+ ?t) with t ].

Section StrFacts.

Implicit Types (s t u : string) (a c : ascii) (l : list ascii).

Lemma str_app_nil_l t : "" +:+ t = t.
Proof. reflexivity. Qed.

Lemma str_app_cons a s t : String a s +:+ t = String a (s +:+ t).
Proof. reflexivity. Qed.

Lemma str_app_nil_r s : s +:+ "" = s.
Proof. induction s as [|a s IH]; str_simpl; [done|]. by rewrite IH. Qed.

Lemma str_app_assoc s t u : (s +:+ t) +:+ u = s +:+ t +:+ u.
Proof. induction s as [|a s IH]; str_simpl; [done|]. by rewrite IH. Qed.

Lemma str_app_length s t :
  String.length (s +:+ t) = (String.length s + String.length t)%nat.
Proof. induction s as [|a s IH]; str_simpl; [done|]. by rewrite IH. Qed.

Lemma of_chars_chars s : Str.of_chars (Str.chars s) = s.
Proof. apply string_of_list_ascii_of_string. Qed.

Lemma chars_of_chars l : Str.chars (Str.of_chars l) = l.
Proof. apply list_ascii_of_string_of_list_ascii. Qed.

Lemma of_chars_app l1 l2 :
  Str.of_chars (l1 ++ l2) = Str.of_chars l1 +:+ Str.of_chars l2.
Proof. induction l1 as [|a l1 IH]; str_simpl; [done|]. by rewrite IH. Qed.

Lemma of_chars_length l : String.length (Str.of_chars l) = length l.
Proof. induction l as [|a l IH]; str_simpl; [done|]. by rewrite IH. Qed.

Lemma chars_length s : length (Str.chars s) = String.length s.
Proof. by rewrite <- (of_chars_length (Str.chars s)), of_chars_chars. Qed.

Lemma reversed_of_chars l : Str.reversed (Str.of_chars l) = Str.of_chars (reverse l).
Proof. unfold Str.reversed. by rewrite chars_of_chars. Qed.

Lemma reversed_length s : String.length (Str.reversed s) = String.length s.
Proof.
  unfold Str.reversed.
  by rewrite of_chars_length, length_reverse, chars_length.
Qed.

Lemma join_empty_of_chars (ls : list (list ascii)) :
  Str.join "" (Str.of_chars <$> ls) = Str.of_chars (concat ls).
Proof.
  induction ls as [|x ls IH]; [done|].
  destruct ls as [|y ls].
  - str_simpl. by rewrite app_nil_r.
  - change (Str.join "" (Str.of_chars <$> x :: y :: ls))
      with (Str.of_chars x +:+ "" +:+ Str.join "" (Str.of_chars <$> y :: ls)).
    rewrite IH. change (concat (x :: y :: ls)) with (x ++ concat (y :: ls)).
    by rewrite of_chars_app.
Qed.

Lemma all_digits_app s t :
  Str.all_digits (s +:+ t) = Str.all_digits s && Str.all_digits t.
Proof.
  induction s as [|a s IH]; str_simpl; [done|].
  rewrite IH. by rewrite andb_assoc.
Qed.

Lemma contains_app c s t :
  Str.contains c (s +:+ t) = Str.contains c s || Str.contains c t.
Proof.
  induction s as [|a s IH]; str_simpl; [done|].
  destruct (Ascii.eqb a c); [done|apply IH].
Qed.

Lemma split_no_sep c s : Str.contains c s = false -> Str.split c s = [s].
Proof.
  induction s as [|a s IH]; str_simpl; [done|].
  destruct (Ascii.eqb a c); [done|]. intros H. by rewrite (IH H).
Qed.

Lemma split_at_first c s t :
  Str.contains c s = false ->
  Str.split c (s +:+ String c t) = s :: Str.split c t.
Proof.
  induction s as [|a s IH]; str_simpl.
  - by rewrite Ascii.eqb_refl.
  - destruct (Ascii.eqb a c); [done|]. intros H. by rewrite (IH H).
Qed.

Lemma replace_first_at c new s t :
  Str.contains c s = false ->
  Str.replace_first c new (s +:+ String c t) = s +:+ new +:+ t.
Proof.
  induction s as [|a s IH]; str_simpl.
  - by rewrite Ascii.eqb_refl.
  - destruct (Ascii.eqb a c); [done|]. intros H. by rewrite (IH H).
Qed.

Lemma all_digits_contains c s :
  Str.is_digit c = false -> Str.all_digits s = true -> Str.contains c s = false.
Proof.
  intros Hc. induction s as [|a s IH]; str_simpl; [done|].
  intros [Ha Hs]%andb_true_iff.
  destruct (Ascii.eqb_spec a c) as [->|_]; [congruence|auto].
Qed.

Lemma repeat_length a n : String.length (Str.repeat a n) = n.
Proof. induction n as [|n IH]; str_simpl; [done|]. by rewrite IH. Qed.

End StrFacts.

(** ** Grouping *)

Section Grouping.

Implicit Types (r : list ascii).

Lemma range3_pos n :
  (0 < n)%nat -> range3 n = 0%nat :: ((fun i => 3 + i)%nat <$> range3 (n - 3)).
Proof.
  intros Hn. unfold range3.
  replace ((n + 2) / 3)%nat with (S ((n - 3 + 2) / 3)).
  2:{ destruct (decide (n < 3)%nat) as [Hlt|Hge].
      - assert (n = 1 \/ n = 2)%nat as [-> | ->] by lia; reflexivity.
      - replace (n + 2)%nat with ((n - 3 + 2) + 1 * 3)%nat by lia.
        rewrite Nat.div_add by lia. lia. }
  rewrite <- cons_seq, <- fmap_S_seq. simpl. f_equal.
  rewrite <- !list_fmap_compose. apply list_fmap_ext.
  intros _ k _. simpl. lia.
Qed.

Lemma chunks3_nil : chunks3 [] = [].
Proof. reflexivity. Qed.

Lemma chunks3_cons r :
  r <> [] -> chunks3 r = take 3 r :: chunks3 (drop 3 r).
Proof.
  intros Hr. unfold chunks3.
  rewrite range3_pos by (destruct r; simpl; [done|lia]).
  rewrite fmap_cons, drop_0. f_equal.
  rewrite length_drop, <- list_fmap_compose.
  apply list_fmap_ext. intros _ i _. simpl. by rewrite drop_drop.
Qed.

Lemma chunks3_spec r :
  r <> [] ->
  exists init last,
    chunks3 r = init ++ [last]
    /\ Forall (fun g => length g = 3%nat) init
    /\ (1 <= length last <= 3)%nat
    /\ concat (chunks3 r) = r
    /\ ((3 < length r)%nat -> init <> []).
Proof.
  remember (length r) as n eqn:Hn. revert r Hn.
  induction n as [n IH] using lt_wf_ind. intros r Hn Hr.
  assert (0 < length r)%nat as Hpos by (destruct r; simpl; [done|lia]).
  rewrite chunks3_cons by done.
  destruct (decide (length r <= 3)%nat) as [Hle|Hgt].
  - rewrite (drop_ge r 3), chunks3_nil, take_ge by lia.
    exists [], r. simpl. rewrite app_nil_r.
    repeat split; [constructor|lia|lia|lia].
  - destruct (IH (length (drop 3 r))) with (r := drop 3 r)
      as (init & last & Heq & Hinit & Hlast & Hcat & _).
    + rewrite length_drop. lia.
    + done.
    + intros Hnil. apply (f_equal length) in Hnil.
      rewrite length_drop in Hnil. simpl in Hnil. lia.
    + exists (take 3 r :: init), last. rewrite Heq. repeat split.
      * constructor; [|done]. rewrite length_take. lia.
      * lia.
      * lia.
      * rewrite <- Heq. simpl. rewrite Hcat. apply take_drop.
      * done.
Qed.

Lemma concat_reverse_groups (cs : list (list ascii)) :
  concat (reverse <$> reverse cs) = reverse (concat cs).
Proof.
  induction cs as [|c cs IH]; [done|].
  rewrite reverse_cons, fmap_app, concat_app, IH. simpl.
  by rewrite app_nil_r, reverse_app.
Qed.

Lemma group_thousands_chunks (integer_part sep : string) :
  (3 < String.length integer_part)%nat ->
  group_thousands integer_part sep =
    Str.join sep
      (Str.of_chars <$>
         (reverse <$> reverse (chunks3 (reverse (Str.chars integer_part))))).
Proof.
  intros Hlen. unfold group_thousands.
  destruct (Nat.leb_spec (String.length integer_part) 3) as [?|_]; [lia|].
  cbv zeta. f_equal.
  rewrite <- fmap_reverse, <- !list_fmap_compose.
  unfold chunks3. rewrite <- fmap_reverse, <- list_fmap_compose.
  rewrite reversed_length, length_reverse, chars_length.
  apply list_fmap_ext. intros _ i _. simpl.
  unfold Str.slice. rewrite reversed_of_chars.
  replace (i + 3 - i)%nat with 3%nat by lia.
  unfold Str.reversed. by rewrite chars_of_chars.
Qed.

End Grouping.

(** C3.  On a string of ASCII digits, [group_thousands] returns a string of
    at most three characters unchanged; a longer one is cut into groups of
    three counted from its right end, the leftmost group keeping one to three
    digits, and the groups are joined left to right with the separator. *)
Theorem group_thousands_groups (digits sep : string) :
  Str.all_digits digits = true ->
  ((String.length digits <= 3)%nat -> group_thousands digits sep = digits)
  /\ ((3 < String.length digits)%nat ->
      exists first rest,
        digits = Str.join "" (first :: rest)
        /\ (1 <= String.length first <= 3)%nat
        /\ rest <> []
        /\ Forall (fun g => String.length g = 3%nat) rest
        /\ group_thousands digits sep = Str.join sep (first :: rest)).
Proof.
  intros _. split.
  - intros Hle. unfold group_thousands.
    by destruct (Nat.leb_spec (String.length digits) 3) as [_|?]; [|lia].
  - intros Hgt. rewrite group_thousands_chunks by done.
    set (r := reverse (Str.chars digits)).
    assert (length r = String.length digits) as Hr
      by (unfold r; by rewrite length_reverse, chars_length).
    destruct (chunks3_spec r) as (init & last & Heq & Hinit & Hlast & Hcat & Hne).
    { intros Hnil. rewrite Hnil in Hr. simpl in Hr. lia. }
    exists (Str.of_chars (reverse last)),
      (Str.of_chars <$> (reverse <$> reverse init)).
    assert (reverse <$> reverse (chunks3 r)
            = reverse last :: (reverse <$> reverse init)) as Hgroups.
    { rewrite Heq, reverse_app. reflexivity. }
    repeat split.
    + rewrite <- (of_chars_chars digits) at 1.
      rewrite <- (reverse_involutive (Str.chars digits)).
      fold r. rewrite <- Hcat, <- concat_reverse_groups, Hgroups.
      symmetry. apply (join_empty_of_chars (_ :: _)).
    + rewrite of_chars_length, length_reverse. lia.
    + rewrite of_chars_length, length_reverse. lia.
    + intros Hnil. apply fmap_nil_inv, fmap_nil_inv in Hnil.
      apply (f_equal reverse) in Hnil. rewrite reverse_involutive in Hnil.
      apply Hne; [lia|done].
    + rewrite Forall_fmap, Forall_fmap, Forall_reverse.
      eapply Forall_impl; [exact Hinit|].
      intros g Hg. simpl. by rewrite of_chars_length, length_reverse.
    + by rewrite Hgroups.
Qed.

Lemma group_thousands_groups_witness :
  exists first rest,
    "1234567" = Str.join "" (first :: rest)
    /\ (1 <= String.length first <= 3)%nat
    /\ rest <> []
    /\ Forall (fun g => String.length g = 3%nat) rest
    /\ group_thousands "1234567" "," = Str.join "," (first :: rest).
Proof.
  apply (group_thousands_groups "1234567" ","); [reflexivity | simpl; lia].
Defined.

Example group_thousands_empty sep : group_thousands "" sep = "".
Proof. reflexivity. Qed.

Example group_thousands_zeros sep : group_thousands "000" sep = "000".
Proof. reflexivity. Qed.

(** ** Decimal digits *)

Section Digits.

Import Host Parse.

Lemma digit_char_code d :
  0 <= d <= 9 -> Z.of_nat (nat_of_ascii (digit_char d)) = 48 + d.
Proof.
  intros Hd. unfold digit_char.
  rewrite nat_ascii_embedding by lia. lia.
Qed.

Lemma digit_char_is_digit d : 0 <= d <= 9 -> Str.is_digit (digit_char d) = true.
Proof.
  intros Hd. unfold Str.is_digit.
  pose proof (digit_char_code d Hd).
  apply andb_true_iff. split; apply Nat.leb_le; lia.
Qed.

Lemma pow10_pos k : 0 < 10 ^ Z.of_nat k.
Proof. apply Z.pow_pos_nonneg; lia. Qed.

Lemma digit_range n k : 0 <= (n / 10 ^ Z.of_nat k) mod 10 <= 9.
Proof. pose proof (Z.mod_pos_bound (n / 10 ^ Z.of_nat k) 10). lia. Qed.

Lemma digits_fixed_length k n : String.length (digits_fixed k n) = k.
Proof.
  induction k as [|k IH]; [done|].
  cbn [digits_fixed String.length]. by rewrite IH.
Qed.

Lemma digits_fixed_all_digits k n : Str.all_digits (digits_fixed k n) = true.
Proof.
  induction k as [|k IH]; [done|].
  cbn [digits_fixed Str.all_digits].
  rewrite IH, digit_char_is_digit; [done|apply digit_range].
Qed.



Lemma num_digits_go_bound fuel n :
  0 <= n < 2 ^ (Z.of_nat fuel + 1) ->
  n < 10 ^ Z.of_nat (num_digits_go fuel n)
  /\ (1 <= n -> 10 ^ (Z.of_nat (num_digits_go fuel n) - 1) <= n).
Proof.
  revert n. induction fuel as [|fuel IH]; intros n Hn.
  - change (2 ^ (Z.of_nat 0 + 1)) with 2 in Hn.
    cbn [num_digits_go]. change (Z.of_nat 1) with 1.
    rewrite Z.pow_1_r, Z.sub_diag, Z.pow_0_r. lia.
  - cbn [num_digits_go]. destruct (Z.ltb_spec n 10) as [Hlt|Hge].
    + change (Z.of_nat 1) with 1.
      rewrite Z.pow_1_r, Z.sub_diag, Z.pow_0_r. lia.
    + destruct (IH (n / 10)) as [Hup Hlow].
      { split; [apply Z.div_pos; lia|].
        apply Z.div_lt_upper_bound; [lia|].
        replace (Z.of_nat (S fuel) + 1) with (Z.succ (Z.of_nat fuel + 1)) in Hn by lia.
        rewrite Z.pow_succ_r in Hn by lia. lia. }
      rewrite Nat2Z.inj_succ. split.
      * rewrite Z.pow_succ_r by lia.
        pose proof (Z.div_mod n 10). pose proof (Z.mod_pos_bound n 10). lia.
      * intros _. replace (Z.succ (Z.of_nat (num_digits_go fuel (n / 10))) - 1)
          with (Z.succ (Z.of_nat (num_digits_go fuel (n / 10)) - 1)) by lia.
        assert (1 <= Z.of_nat (num_digits_go fuel (n / 10)))
          by (destruct fuel; simpl; [lia|destruct (n / 10 <? 10); lia]).
        rewrite Z.pow_succ_r by lia.
        assert (1 <= n / 10) by (apply Z.div_le_lower_bound; lia).
        pose proof (Z.div_mod n 10). pose proof (Z.mod_pos_bound n 10). lia.
Qed.

Lemma num_digits_bound n :
  0 <= n ->
  n < 10 ^ Z.of_nat (num_digits n)
  /\ (1 <= n -> 10 ^ (Z.of_nat (num_digits n) - 1) <= n).
Proof.
  intros Hn. apply num_digits_go_bound. split; [done|].
  destruct (decide (n = 0)) as [->|Hne]; [simpl; lia|].
  rewrite Z2Nat.id by apply Z.log2_nonneg.
  pose proof (Z.log2_spec n). unfold Z.succ in *. lia.
Qed.

Lemma num_digits_pos n : (1 <= num_digits n)%nat.
Proof.
  unfold num_digits. destruct (Z.to_nat (Z.log2 n)); simpl; [lia|].
  destruct (n <? 10); lia.
Qed.

Lemma int_digits_all_digits n : Str.all_digits (int_digits n) = true.
Proof. apply digits_fixed_all_digits. Qed.

Lemma int_digits_length n : (1 <= String.length (int_digits n))%nat.
Proof. unfold int_digits. rewrite digits_fixed_length. apply num_digits_pos. Qed.


Lemma int_digits_0 : int_digits 0 = "0".
Proof. reflexivity. Qed.

Lemma digits_fixed_0 k : digits_fixed k 0 = Str.repeat "0" k.
Proof.
  induction k as [|k IH]; simpl; [done|].
  by rewrite IH, Z.div_0_l by (pose proof (pow10_pos k); lia).
Qed.


End Digits.

(** ** The precision of a format string *)

Section Precision.

Import Host.

Lemma ssize_below_limit : SSIZE_MAX < int_str_limit.
Proof. by vm_compute. Qed.

Lemma precision_field_ok p :
  0 <= p <= INT_MAX -> precision_field p = Ok p.
Proof.
  intros Hp. unfold precision_field.
  pose proof ssize_below_limit as Hlim.
  assert (INT_MAX < SSIZE_MAX) as Hmax by (by vm_compute).
  destruct (Z.leb_spec int_str_limit (Z.abs p)) as [?|_]; [lia|].
  destruct (Z.ltb_spec p 0) as [?|_]; [lia|].
  destruct (Z.ltb_spec SSIZE_MAX p) as [?|_]; [lia|].
  by destruct (Z.ltb_spec INT_MAX p) as [?|_]; [lia|].
Qed.

Lemma precision_field_negative p :
  - int_str_limit < p < 0 -> precision_field p = Raise missing_precision.
Proof.
  intros Hp. unfold precision_field.
  destruct (Z.leb_spec int_str_limit (Z.abs p)) as [?|_]; [lia|].
  by destruct (Z.ltb_spec p 0) as [_|?]; [|lia].
Qed.

(** a precision that is accepted is between [0] and [INT_MAX] *)
Lemma precision_field_inv p q :
  precision_field p = Ok q -> q = p /\ 0 <= p <= INT_MAX.
Proof.
  unfold precision_field.
  destruct (int_str_limit <=? Z.abs p); [discriminate|].
  destruct (Z.ltb_spec p 0) as [?|?]; [discriminate|].
  destruct (SSIZE_MAX <? p); [discriminate|].
  destruct (Z.ltb_spec INT_MAX p) as [?|?]; [discriminate|].
  intros [= <-]. lia.
Qed.

Lemma precision_field_too_big p :
  INT_MAX < p -> exists msg, precision_field p = Raise (ValueError msg).
Proof.
  intros Hp. unfold precision_field.
  assert (0 <= INT_MAX) by (by vm_compute).
  destruct (int_str_limit <=? Z.abs p); [eauto|].
  destruct (Z.ltb_spec p 0) as [?|_]; [lia|].
  destruct (SSIZE_MAX <? p); [eauto|].
  destruct (Z.ltb_spec INT_MAX p) as [_|?]; [eauto|lia].
Qed.

Lemma precision_field_raises p e :
  precision_field p = Raise e -> exists msg, e = ValueError msg.
Proof.
  unfold precision_field, missing_precision.
  repeat match goal with
         | |- context [if ?b then _ else _] => destruct b
         end; intros [= <-]; eauto.
Qed.

End Precision.

(** ** Rounding *)

Section Rounding.

Import Host.

Lemma round_half_even_nearest num den :
  0 <= num -> 0 < den ->
  0 <= round_half_even num den
  /\ 2 * Z.abs (round_half_even num den * den - num) <= den
  /\ (2 * Z.abs (round_half_even num den * den - num) = den ->
      Z.even (round_half_even num den) = true).
Proof.
  intros Hnum Hden. unfold round_half_even.
  pose proof (Z.div_mod num den ltac:(lia)) as Hdm.
  pose proof (Z.mod_pos_bound num den Hden) as Hr.
  assert (0 <= num / den) as Hq by (apply Z.div_pos; lia).
  set (q := num / den) in *. set (r := num mod den) in *.
  clearbody q r.
  assert (q * den - num = - r) as H0 by lia.
  assert ((q + 1) * den - num = den - r) as H1 by lia.
  destruct (Z.compare_spec (2 * r) den) as [Heq|Hlt|Hgt].
  - destruct (Z.even q) eqn:Hev.
    + rewrite H0. repeat split; [lia|lia|done].
    + rewrite H1. repeat split; [lia|lia|]. intros _.
      rewrite Z.add_1_r, Z.even_succ, <- Z.negb_even, Hev. done.
  - rewrite H0. repeat split; lia.
  - rewrite H1. repeat split; lia.
Qed.

Lemma scaled_pos m e k :
  0 < fst (scaled m e k) /\ 0 < snd (scaled m e k).
Proof.
  unfold scaled. cbn [fst snd].
  assert (forall b z, 0 < b -> 0 < b ^ Z.max z 0) as Hpow
    by (intros; apply Z.pow_pos_nonneg; lia).
  pose proof (Hpow 2 e). pose proof (Hpow 10 k).
  pose proof (Hpow 2 (- e)). pose proof (Hpow 10 (- k)).
  split; [|nia]. assert (0 < Z.pos m) by lia. nia.
Qed.

Lemma scaled_abs_pos x p :
  0 <= fst (scaled_abs x p) /\ 0 < snd (scaled_abs x p).
Proof.
  destruct x as [s|s| |s m e]; [simpl; lia..|].
  pose proof (scaled_pos m e p) as [Hn Hd].
  cbn [scaled_abs]. split; [lia|done].
Qed.

Lemma rounded_abs_nonneg x p : 0 <= rounded_abs x p.
Proof.
  unfold rounded_abs. pose proof (scaled_abs_pos x p) as [Hn Hd].
  destruct (scaled_abs x p) as [num den].
  by apply round_half_even_nearest.
Qed.

Lemma format_f_finite x p :
  is_finite x = true -> 0 <= p <= INT_MAX ->
  format_f p (SFabs x) = Ok (fixed_repr (rounded_abs x p) p).
Proof.
  intros Hx Hp. unfold format_f. rewrite precision_field_ok by done.
  destruct x; try discriminate; reflexivity.
Qed.

End Rounding.

(** ** The plain renderer *)

Section Plain.

Import Host.

(** what [format_plain] returns on a finite value, in terms of the integer
    that the magnitude is rounded to *)
Lemma format_plain_finite value cfg decimals grouping :
  is_finite value = true -> 0 <= decimals <= INT_MAX ->
  let n := rounded_abs value decimals in
  format_plain value cfg decimals grouping =
    Ok (sign_of value
        +:+ grouped_if grouping cfg (int_digits (n / 10 ^ decimals))
        +:+ (if 0 <? decimals
             then decimal_sep cfg +:+ digits_fixed (Z.to_nat decimals) n
             else "")).
Proof.
  intros Hfin Hd n. unfold format_plain.
  rewrite format_f_finite by done. fold n. cbn [bind].
  unfold fixed_repr.
  set (ip := int_digits (n / 10 ^ decimals)).
  set (fp := digits_fixed (Z.to_nat decimals) n).
  assert (Str.contains "." ip = false) as Hip
    by (apply all_digits_contains; [done|apply int_digits_all_digits]).
  assert (Str.contains "." fp = false) as Hfp
    by (apply all_digits_contains; [done|apply digits_fixed_all_digits]).
  destruct (0 <? decimals) eqn:Hpos.
  - rewrite contains_app, Hip. str_simpl.
    rewrite split_at_first, split_no_sep by done. cbn [unpack2 bind].
    unfold sign_of, grouped_if. reflexivity.
  - rewrite !str_app_nil_r, Hip. cbn [bind].
    unfold sign_of, grouped_if. reflexivity.
Qed.

End Plain.


Section PlainShape.

Import Host.

Lemma lt_zero_abs value : lt_zero (SFabs value) = false.
Proof. by destruct value. Qed.

Lemma abs_abs value : SFabs (SFabs value) = SFabs value.
Proof. by destruct value. Qed.

(** the sign is put in front of the rendering of the magnitude *)
Lemma format_plain_abs value cfg decimals grouping :
  format_plain value cfg decimals grouping =
    let* body := format_plain (SFabs value) cfg decimals grouping in
    Ok (sign_of value +:+ body).
Proof.
  unfold format_plain, sign_of. rewrite abs_abs, lt_zero_abs.
  destruct (format_f decimals (SFabs value)) as [number_str|e]; [|done].
  cbn [bind].
  destruct (if Str.contains "." number_str
            then unpack2 (Str.split "." number_str)
            else Ok (number_str, "")) as [[int_part frac_part]|e]; done.
Qed.

(** with a precision that the host accepts, [format_plain] returns *)
Lemma format_plain_total value cfg decimals grouping :
  0 <= decimals <= INT_MAX ->
  exists s, format_plain value cfg decimals grouping = Ok s.
Proof.
  intros Hd. destruct (is_finite value) eqn:Hfin.
  - rewrite format_plain_finite by done. eauto.
  - unfold format_plain, format_f. rewrite precision_field_ok by done.
    destruct value as [s|s| |s m e]; try discriminate; cbn; eauto.
Qed.

(** with any other precision it raises, whatever the value *)
Lemma plain_precision_refused value cfg decimals grouping :
  INT_MAX < decimals ->
  exists msg, format_plain value cfg decimals grouping = Raise (ValueError msg).
Proof.
  intros Hd. unfold format_plain, format_f.
  destruct (precision_field_too_big decimals Hd) as [msg ->]. eauto.
Qed.

Lemma grouped_if_small grouping cfg s :
  (String.length s <= 3)%nat -> grouped_if grouping cfg s = s.
Proof.
  intros Hs. destruct grouping; [|done]. unfold grouped_if, group_thousands.
  by destruct (Nat.leb_spec (String.length s) 3) as [_|?]; [|lia].
Qed.

End PlainShape.

(** C5, as the specification states it, fails for some [decimals >= 0]:
    the host refuses a precision above the C [int] range, so with
    [decimals = 2^31] nothing is rendered and [ValueError] is raised. *)
Lemma format_plain_precision_refused :
  Host.is_finite Lit.f_1234_5 = true
  /\ 0 <= 2147483648
  /\ format_plain Lit.f_1234_5 US 2147483648 true
     = Raise (ValueError "precision too big")
  /\ format_plain Lit.f_1234_5 US 2147483648 false
     = Raise (ValueError "precision too big").
Proof. vm_compute. repeat split; discriminate. Qed.

(** C5, amended.  On a finite value and a number of decimals from [0] to
    [2^31 - 1], the result of [format_plain] is an optional leading ["-"],
    then the digits of the integer part (at least one), grouped with the
    thousands separator of the locale when grouping is asked for and left
    alone otherwise, then, exactly when [decimals > 0], the decimal
    separator of the locale followed by exactly [decimals] digits, which are
    not grouped. *)
Theorem format_plain_shape (value : float) (cfg : locale_cfg) (decimals : Z)
    (grouping : bool) :
  Host.is_finite value = true -> 0 <= decimals <= Host.INT_MAX ->
  exists int_part frac_part : string,
    int_part <> ""
    /\ Str.all_digits int_part = true
    /\ Str.all_digits frac_part = true
    /\ String.length frac_part = Z.to_nat decimals
    /\ format_plain value cfg decimals grouping =
         Ok ((if Host.lt_zero value then "-" else "")
             +:+ (if grouping
                  then group_thousands int_part (thousands_sep cfg)
                  else int_part)
             +:+ (if 0 <? decimals then decimal_sep cfg +:+ frac_part else "")).
Proof.
  intros Hfin Hd.
  exists (Host.int_digits (rounded_abs value decimals / 10 ^ decimals)),
    (Host.digits_fixed (Z.to_nat decimals) (rounded_abs value decimals)).
  repeat split.
  - intros Hnil. pose proof (int_digits_length
      (rounded_abs value decimals / 10 ^ decimals)) as Hlen.
    rewrite Hnil in Hlen. simpl in Hlen. lia.
  - apply int_digits_all_digits.
  - apply digits_fixed_all_digits.
  - apply digits_fixed_length.
  - by rewrite format_plain_finite.
Qed.

Lemma format_plain_shape_witness :
  exists int_part frac_part : string,
    int_part <> ""
    /\ Str.all_digits int_part = true
    /\ Str.all_digits frac_part = true
    /\ String.length frac_part = Z.to_nat 2
    /\ format_plain Lit.f_neg_1234_5 EU 2 true =
         Ok ((if Host.lt_zero Lit.f_neg_1234_5 then "-" else "")
             +:+ (if true
                  then group_thousands int_part (thousands_sep EU)
                  else int_part)
             +:+ (if 0 <? 2 then decimal_sep EU +:+ frac_part else "")).
Proof.
  apply (format_plain_shape Lit.f_neg_1234_5 EU 2 true);
    [reflexivity | vm_compute; split; discriminate].
Defined.

Example format_plain_eu : format_plain Lit.f_neg_1234_5 EU 2 true = Ok "-1.234,50".
Proof. vm_compute. reflexivity. Qed.

(** ** Rounding of the plain renderer *)




(** ** The floats of the program are binary64 values

    [float(text)] and [float(n)] round to a binary64 value, so every float
    that the endpoint hands to the dispatcher is one, a float decoded from
    a JSON body being one from the start. *)

Section Binary64.

Import Host Parse.

Lemma digits2_pos_log2 m : Zpos (digits2_pos m) = Z.log2 (Zpos m) + 1.
Proof.
  assert (forall p, Zpos (digits2_pos p) = Zpos (Pos.size p)) as Hsize.
  { induction p as [p IH|p IH|]; simpl; [| |done];
      rewrite !Pos2Z.inj_succ; lia. }
  rewrite Hsize. destruct m as [p|p|]; simpl; [| |done];
    rewrite ?Pos2Z.inj_succ; lia.
Qed.

Lemma round_half_even_lower num den a :
  0 < den -> a * den <= num -> a <= round_half_even num den.
Proof.
  intros Hden Ha. unfold round_half_even.
  assert (a <= num / den) by (apply Z.div_le_lower_bound; lia).
  destruct (_ ?= _); [destruct (Z.even _)| |]; lia.
Qed.

Lemma round_half_even_upper num den b :
  0 < den -> num <= b * den -> round_half_even num den <= b.
Proof.
  intros Hden Hb. unfold round_half_even.
  pose proof (Z.div_mod num den ltac:(lia)) as Hdm.
  pose proof (Z.mod_pos_bound num den Hden) as Hmod.
  set (q := num / den) in *. set (r := num mod den) in *. clearbody q r.
  assert (q <= b) by nia.
  destruct (Z.compare_spec (2 * r) den) as [Heq|Hlt|Hgt].
  - destruct (Z.even q); [lia|]. nia.
  - lia.
  - nia.
Qed.

Lemma bounded_binary64 s m e :
  0 < m < 2 ^ 53 -> -1074 <= e <= 971 -> (2 ^ 52 <= m \/ e = -1074) ->
  is_binary64 (S754_finite s (Z.to_pos m) e) = true.
Proof.
  intros Hm He Hnorm.
  unfold is_binary64, valid_binary, bounded, canonical_mantissa, fexp, emin.
  rewrite digits2_pos_log2, Z2Pos.id by lia.
  apply andb_true_iff. split; [|apply Z.leb_le; lia].
  apply Z.eqb_eq.
  assert (Z.log2 m < 53) by (apply Z.log2_lt_pow2; lia).
  destruct Hnorm as [Hnorm| ->]; [|lia].
  assert (52 <= Z.log2 m) by (apply Z.log2_le_pow2; lia).
  lia.
Qed.

(** the exponent that leaves 53 bits before the point *)
Lemma ratio_exponent num den :
  0 < num -> 0 < den ->
  let e0 := Z.log2 num - Z.log2 den - 53 in
  let q0 := (num * 2 ^ Z.max (- e0) 0) / (den * 2 ^ Z.max e0 0) in
  let e1 := if 2 ^ 53 <=? q0 then e0 + 1 else e0 in
  2 ^ 52 * (den * 2 ^ Z.max e1 0) <= num * 2 ^ Z.max (- e1) 0
  /\ num * 2 ^ Z.max (- e1) 0 < 2 ^ 53 * (den * 2 ^ Z.max e1 0).
Proof.
  intros Hnum Hden e0 q0 e1.
  destruct (Z.log2_spec num Hnum) as [Hn1 Hn2].
  destruct (Z.log2_spec den Hden) as [Hd1 Hd2].
  pose proof (Z.log2_nonneg num) as Hln. pose proof (Z.log2_nonneg den) as Hld.
  rewrite Z.pow_succ_r in Hn2, Hd2 by done.
  set (P := 2 ^ Z.log2 num) in *. set (Q := 2 ^ Z.log2 den) in *.
  assert (0 < Q) as HQ by (apply Z.pow_pos_nonneg; lia).
  set (A0 := 2 ^ Z.max (- e0) 0) in *. set (B0 := 2 ^ Z.max e0 0) in *.
  assert (0 < A0) as HA0 by (apply Z.pow_pos_nonneg; lia).
  assert (0 < B0) as HB0 by (apply Z.pow_pos_nonneg; lia).
  assert (P * A0 = 2 ^ 53 * Q * B0) as Hkey.
  { unfold P, Q, A0, B0. rewrite <- !Z.pow_add_r by lia. f_equal. lia. }
  assert (den * B0 <= 2 * Q * B0) as H1 by (apply Z.mul_le_mono_nonneg_r; lia).
  assert (Q * B0 <= den * B0) as H2 by (apply Z.mul_le_mono_nonneg_r; lia).
  assert (P * A0 <= num * A0) as H3 by (apply Z.mul_le_mono_nonneg_r; lia).
  assert (num * A0 < 2 * P * A0) as H4 by (apply Z.mul_lt_mono_pos_r; lia).
  assert (0 < den * B0) as HD0 by lia.
  pose proof (Z.div_mod (num * A0) (den * B0) ltac:(lia)) as Hdm.
  pose proof (Z.mod_pos_bound (num * A0) (den * B0) HD0) as Hmod.
  fold q0 in Hdm.
  set (r0 := (num * A0) mod (den * B0)) in *. clearbody r0.
  assert (2 ^ 53 <= q0 -> 2 ^ 53 * (den * B0) <= num * A0) as Hge.
  { intros Hq. assert (2 ^ 53 * (den * B0) <= q0 * (den * B0))
      by (apply Z.mul_le_mono_nonneg_r; lia). lia. }
  assert (q0 < 2 ^ 53 -> num * A0 < 2 ^ 53 * (den * B0)) as Hlt.
  { intros Hq. assert ((q0 + 1) * (den * B0) <= 2 ^ 53 * (den * B0))
      by (apply Z.mul_le_mono_nonneg_r; lia). lia. }
  clearbody q0. unfold e1.
  destruct (Z.leb_spec (2 ^ 53) q0) as [Hq|Hq].
  - specialize (Hge Hq).
    destruct (Z.le_gt_cases 0 e0) as [He0|He0].
    + assert (2 ^ Z.max (- (e0 + 1)) 0 = A0) as ->
        by (unfold A0; f_equal; lia).
      assert (2 ^ Z.max (e0 + 1) 0 = 2 * B0) as ->.
      { unfold B0. rewrite !Z.max_l by lia. rewrite Z.pow_add_r by lia. lia. }
      lia.
    + assert (2 ^ Z.max (e0 + 1) 0 = B0) as ->
        by (unfold B0; f_equal; lia).
      assert (A0 = 2 * 2 ^ Z.max (- (e0 + 1)) 0) as HA.
      { unfold A0. rewrite !Z.max_l by lia.
        rewrite <- Z.pow_succ_r by lia. f_equal. lia. }
      set (A1 := 2 ^ Z.max (- (e0 + 1)) 0) in *. clearbody A1 A0. subst A0.
      lia.
  - specialize (Hlt Hq). fold A0 B0. lia.
Qed.

(** the conversions of the program make binary64 values *)
Lemma binary64_of_ratio_valid s num den :
  0 <= num -> 0 < den -> is_binary64 (binary64_of_ratio s num den) = true.
Proof.
  intros Hnum Hden. unfold binary64_of_ratio.
  destruct (Z.eqb_spec num 0) as [|Hnz]; [done|].
  pose proof (ratio_exponent num den ltac:(lia) Hden) as Hexp.
  cbv zeta in *.
  set (e1 := if 2 ^ 53 <=? _ then _ else _) in *.
  destruct Hexp as [Hlo Hhi].
  set (e := Z.max e1 (-1074)).
  set (A := 2 ^ Z.max (- e) 0). set (B := 2 ^ Z.max e 0).
  assert (0 < A) as HA by (apply Z.pow_pos_nonneg; lia).
  assert (0 < B) as HB by (apply Z.pow_pos_nonneg; lia).
  assert (0 < den * B) as HD by lia.
  assert (num * A <= 2 ^ 53 * (den * B) /\
          (2 ^ 52 * (den * B) <= num * A \/ e = -1074)) as [Hup Hnorm].
  { destruct (Z.le_gt_cases (-1074) e1) as [He1|He1].
    - assert (e = e1) as Heq by lia. unfold A, B. rewrite Heq. lia.
    - assert (e = -1074) as Heq by lia. split; [|by right].
      assert (2 ^ Z.max (- e1) 0 = A * 2 ^ (- 1074 - e1)) as HA1.
      { unfold A. rewrite Heq, <- Z.pow_add_r by lia. f_equal. lia. }
      assert (2 ^ Z.max e1 0 = B) as HB1 by (unfold B; f_equal; lia).
      rewrite HA1, HB1 in Hhi.
      assert (1 <= 2 ^ (- 1074 - e1)) as HK
        by (assert (0 < 2 ^ (- 1074 - e1)) by (apply Z.pow_pos_nonneg; lia); lia).
      assert (num * A * 1 <= num * A * 2 ^ (- 1074 - e1))
        by (apply Z.mul_le_mono_nonneg_l; lia).
      lia. }
  set (m := round_half_even (num * A) (den * B)).
  assert (0 <= m <= 2 ^ 53) as Hm.
  { split; [apply round_half_even_lower; lia|by apply round_half_even_upper]. }
  assert (2 ^ 52 <= m \/ e = -1074) as Hm'.
  { destruct Hnorm as [Hnorm|?]; [left|by right].
    by apply round_half_even_lower. }
  assert (-1074 <= e) as He by lia.
  clearbody m e. clear -Hm Hm' He.
  destruct (Z.eqb_spec m 0) as [|Hm0]; [done|].
  destruct (Z.eqb_spec m (2 ^ 53)) as [->|Hm53].
  - destruct (Z.ltb_spec 971 (e + 1)); [done|].
    apply bounded_binary64; lia.
  - destruct (Z.ltb_spec 971 e); [done|].
    apply bounded_binary64; lia.
Qed.

Lemma span_digits_all_digits t :
  Str.all_digits (span_digits t).1 = true.
Proof.
  induction t as [|a t IH]; [done|]. cbn [span_digits].
  destruct (Str.is_digit a) eqn:Ha; [|done].
  destruct (span_digits t) as [ds rest]. cbn [fst Str.all_digits] in *.
  by rewrite Ha, IH.
Qed.

Lemma digits_value_acc_nonneg acc t :
  0 <= acc -> Str.all_digits t = true -> 0 <= digits_value_acc acc t.
Proof.
  revert acc. induction t as [|a t IH]; intros acc Hacc Ht; [done|].
  cbn [Str.all_digits digits_value_acc] in *.
  apply andb_true_iff in Ht as [Ha Ht]. apply IH; [|done].
  unfold Str.is_digit in Ha. apply andb_true_iff in Ha as [Ha _].
  apply Nat.leb_le in Ha. lia.
Qed.

Lemma parse_decimal_nonneg body D E :
  parse_decimal body = Some (D, E) -> 0 <= D.
Proof.
  unfold parse_decimal.
  pose proof (span_digits_all_digits body) as Hip.
  destruct (span_digits body) as [ip r1]. cbn [fst] in Hip.
  set (p := match r1 with String "." r => span_digits r | _ => ("", r1) end).
  assert (Str.all_digits p.1 = true) as Hfp.
  { unfold p. destruct r1 as [|a r]; [done|].
    destruct (Ascii.eqb_spec a ".") as [->|Hne]; [apply span_digits_all_digits|].
    destruct a as [[] [] [] [] [] [] [] []]; try done. }
  destruct p as [fp r2]. cbn [fst] in Hfp.
  assert (0 <= digits_value (ip +:+ fp)) as Hval.
  { apply digits_value_acc_nonneg; [done|].
    rewrite all_digits_app. by rewrite Hip, Hfp. }
  destruct (_ && _); [discriminate|].
  destruct r2 as [|c r]; [by intros [= <- _]|].
  destruct (_ || _); [|discriminate].
  destruct (take_sign r) as [es r3]. destruct (span_digits r3) as [ed r4].
  destruct (_ || _); [discriminate|]. by intros [= <- _].
Qed.

Lemma float_of_str_binary64 text x :
  float_of_str text = Ok x -> is_binary64 x = true.
Proof.
  unfold float_of_str.
  destruct (drop_underscores _ _) as [t|]; [|discriminate]. cbn [mbind option_bind].
  destruct (parse_number t) as [y|] eqn:Hnum.
  - intros [= <-]. unfold parse_number in Hnum.
    destruct (take_sign t) as [neg body].
    destruct (parse_decimal body) as [[D E]|] eqn:Hdec; [|discriminate].
    cbn [mbind option_bind] in Hnum. injection Hnum as <-.
    pose proof (parse_decimal_nonneg _ _ _ Hdec).
    apply binary64_of_ratio_valid.
    + apply Z.mul_nonneg_nonneg; [done|]. apply Z.pow_nonneg. lia.
    + apply Z.pow_pos_nonneg; lia.
  - unfold parse_inf_or_nan. destruct (take_sign t) as [neg body].
    repeat case_bool_decide; [by intros [= <-]..|discriminate].
Qed.

Lemma float_of_int_binary64 n x :
  float_of_int n = Ok x -> is_binary64 x = true.
Proof.
  unfold float_of_int.
  pose proof (binary64_of_ratio_valid (n <? 0) (Z.abs n) 1 ltac:(lia) ltac:(lia))
    as Hvalid.
  destruct (binary64_of_ratio _ _ _); [|discriminate| |]; by intros [= <-].
Qed.

Lemma py_float_binary64 value x :
  (forall y, value = PyFloat y -> is_binary64 y = true) ->
  py_float value = Ok x -> is_binary64 x = true.
Proof.
  intros Hfloat. destruct value as [t|y|n|b|]; cbn [py_float].
  - apply float_of_str_binary64.
  - intros [= <-]. by apply Hfloat.
  - apply float_of_int_binary64.
  - apply float_of_int_binary64.
  - discriminate.
Qed.

End Binary64.

(** ** Negative values that round to zero *)

Section SignedZero.

Import Host.

(** the exponent of a binary64 value is at least [-1074] *)
Lemma binary64_exponent s m e :
  is_binary64 (S754_finite s m e) = true -> -1074 <= e.
Proof.
  unfold is_binary64, valid_binary, bounded, canonical_mantissa, fexp, emin.
  intros [Hcanon _]%andb_true_iff. apply Z.eqb_eq in Hcanon. lia.
Qed.

(** a binary64 value whose magnitude rounds to zero is rounded at a
    precision that the host accepts *)
Lemma rounds_to_zero_precision value decimals :
  is_binary64 value = true -> is_finite value = true -> lt_zero value = true ->
  0 <= decimals -> rounded_abs value decimals = 0 ->
  decimals <= INT_MAX.
Proof.
  intros Hvalid Hfin Hneg Hd Hzero.
  destruct value as [s|s| |s m e]; try discriminate.
  - apply binary64_exponent in Hvalid.
    destruct (Z.le_gt_cases decimals 1074) as [Hle|Hgt];
      [unfold INT_MAX; lia|exfalso].
    pose proof (scaled_pos m e decimals) as [Hnum Hden].
    unfold rounded_abs, scaled_abs in Hzero.
    unfold scaled in Hzero, Hnum, Hden. cbn [fst snd] in Hnum, Hden.
    replace (Z.max decimals 0) with decimals in * by lia.
    replace (Z.max (- decimals) 0) with 0 in * by lia.
    rewrite Z.pow_0_r, Z.mul_1_r in *.
    set (num := Z.pos m * 2 ^ Z.max e 0 * 10 ^ decimals) in *.
    set (den := 2 ^ Z.max (- e) 0) in *.
    pose proof (round_half_even_nearest num den ltac:(lia) Hden)
      as (_ & Hnear & _).
    rewrite Hzero in Hnear.
    assert (10 ^ decimals <= num) as Hlow.
    { unfold num.
      assert (0 < 2 ^ Z.max e 0) by (apply Z.pow_pos_nonneg; lia).
      assert (0 < 10 ^ decimals) by (apply Z.pow_pos_nonneg; lia).
      assert (1 <= Z.pos m * 2 ^ Z.max e 0) by nia.
      rewrite <- (Z.mul_1_l (10 ^ decimals)) at 1.
      apply Z.mul_le_mono_nonneg_r; lia. }
    assert (den <= 2 ^ 1074) as Hup
      by (unfold den; apply Z.pow_le_mono_r; lia).
    assert (2 ^ 1074 < 10 ^ decimals) as Hbig.
    { apply Z.lt_le_trans with (2 ^ decimals).
      - apply Z.pow_lt_mono_r; lia.
      - apply Z.pow_le_mono_l. lia. }
    clearbody num den. lia.
Qed.

End SignedZero.

(** C10.  The sign is taken from the value before it is rounded: a finite
    value below zero whose magnitude rounds to zero at the given decimals is
    rendered as a signed zero, ["-0"] followed by the decimal separator and
    the zeros asked for, and the currency renderer puts the same ["-"] in
    front of the symbol; minus zero is not below zero and is rendered
    without a sign.  So [-0.4] with no decimals gives ["-0"], and ["-$0"] as
    US currency, and [-0.0] gives ["0"].  The value is a binary64 float, as
    every float that the endpoint converts is ([py_float_binary64]): the
    number of decimals at which such a value rounds to zero is one that the
    host accepts as a precision. *)
Theorem format_plain_signed_zero (value : float) (cfg : locale_cfg)
    (decimals : Z) (grouping : bool) :
  Host.is_binary64 value = true ->
  Host.is_finite value = true -> Host.lt_zero value = true ->
  0 <= decimals -> rounded_abs value decimals = 0 ->
  let zero :=
    "0" +:+ (if 0 <? decimals
             then decimal_sep cfg +:+ Str.repeat "0" (Z.to_nat decimals)
             else "") in
  format_plain value cfg decimals grouping = Ok ("-" +:+ zero)
  /\ format_currency value cfg decimals = Ok ("-" +:+ with_symbol cfg zero)
  /\ format_plain Lit.f_neg_zero cfg decimals grouping = Ok zero
  /\ format_plain Lit.f_neg_0_4 US 0 false = Ok "-0"
  /\ format_currency Lit.f_neg_0_4 US 0 = Ok "-$0"
  /\ format_plain Lit.f_neg_zero US 0 false = Ok "0".
Proof.
  intros Hvalid Hfin Hneg Hd Hzero zero.
  pose proof (rounds_to_zero_precision _ _ Hvalid Hfin Hneg Hd Hzero) as Hmax.
  assert (forall g, format_plain value cfg decimals g = Ok ("-" +:+ zero)) as Hplain.
  { intros g. rewrite format_plain_finite by done.
    unfold sign_of. rewrite Hneg, Hzero, Z.div_0_l, int_digits_0.
    2:{ assert (0 < 10 ^ decimals) by (apply Z.pow_pos_nonneg; lia). lia. }
    rewrite grouped_if_small by (simpl; lia).
    by rewrite digits_fixed_0. }
  split; [apply Hplain|].
  split; [unfold format_currency; rewrite Hplain; reflexivity|].
  split; [|by vm_compute].
  rewrite format_plain_finite by done.
  change (rounded_abs Lit.f_neg_zero decimals) with 0.
  rewrite Z.div_0_l, int_digits_0.
  2:{ assert (0 < 10 ^ decimals) by (apply Z.pow_pos_nonneg; lia). lia. }
  rewrite grouped_if_small by (simpl; lia).
  by rewrite digits_fixed_0.
Qed.

Lemma format_plain_signed_zero_witness :
  format_plain Lit.f_neg_0_4 EU 0 true = Ok "-0"
  /\ format_currency Lit.f_neg_0_4 EU 0 = Ok "-0 €".
Proof.
  pose proof (format_plain_signed_zero Lit.f_neg_0_4 EU 0 true
                eq_refl eq_refl eq_refl ltac:(lia) eq_refl) as (Hplain & Hcur & _).
  split; [exact Hplain | exact Hcur].
Defined.

(** ** The currency renderer *)

Lemma format_currency_negative value cfg decimals magnitude :
  Host.lt_zero value = true ->
  format_plain (SFabs value) cfg decimals true = Ok magnitude ->
  format_plain value cfg decimals true = Ok ("-" +:+ magnitude)
  /\ format_currency value cfg decimals = Ok ("-" +:+ with_symbol cfg magnitude).
Proof.
  intros Hneg Hmag.
  assert (format_plain value cfg decimals true = Ok ("-" +:+ magnitude)) as Hbase.
  { rewrite format_plain_abs, Hmag. unfold sign_of. by rewrite Hneg. }
  split; [done|]. unfold format_currency. rewrite Hbase. reflexivity.
Qed.

(** C4, as the specification states it, fails for some [decimals >= 0]:
    with [decimals = 2^31] the host refuses the precision and the currency
    renderer raises [ValueError] instead of returning a string with a
    leading sign. *)
Lemma format_currency_precision_refused :
  Host.lt_zero Lit.f_neg_1234_5 = true
  /\ 0 <= 2147483648
  /\ format_currency Lit.f_neg_1234_5 US 2147483648
     = Raise (ValueError "precision too big").
Proof. vm_compute. repeat split; discriminate. Qed.

(** C4, amended.  For a value below zero and a number of decimals from [0]
    to [2^31 - 1], the currency renderer returns ["-"] followed by the
    symbol and the grouped magnitude: the sign is the first character of the
    whole result and never stands between the symbol and the digits.  The
    symbol comes before the magnitude when the position of the profile is
    ["before"] and after it otherwise, with one space between the two
    exactly when the space flag of the profile is set.  For example [1234.5]
    with two decimals is ["$1,234.50"] for US and ["1.234,50 €"] for EU. *)
Theorem format_currency_sign_first (value : float) (cfg : locale_cfg)
    (decimals : Z) :
  Host.lt_zero value = true -> 0 <= decimals <= Host.INT_MAX ->
  (exists magnitude : string,
     format_plain (SFabs value) cfg decimals true = Ok magnitude
     /\ format_plain value cfg decimals true = Ok ("-" +:+ magnitude)
     /\ let space := if currency_symbol_space cfg then " " else "" in
        format_currency value cfg decimals =
          Ok ("-" +:+ (if bool_decide (currency_symbol_position cfg = "before")
                       then currency_symbol cfg +:+ space +:+ magnitude
                       else magnitude +:+ space +:+ currency_symbol cfg)))
  /\ format_number Lit.f_1234_5 "US" "currency" (Some 2) = Ok "$1,234.50"
  /\ format_number Lit.f_1234_5 "EU" "currency" (Some 2) = Ok "1.234,50 €"
  /\ format_number Lit.f_neg_1234_5 "US" "currency" (Some 2) = Ok "-$1,234.50"
  /\ format_number Lit.f_neg_1234_5 "EU" "currency" (Some 2) = Ok "-1.234,50 €".
Proof.
  intros Hneg Hd. split; [|by vm_compute].
  destruct (format_plain_total (SFabs value) cfg decimals true Hd)
    as [magnitude Hmag].
  exists magnitude. split; [done|].
  by apply format_currency_negative.
Qed.

Lemma format_currency_sign_first_witness :
  exists magnitude : string,
    format_plain (SFabs Lit.f_neg_42) UK 2 true = Ok magnitude
    /\ format_plain Lit.f_neg_42 UK 2 true = Ok ("-" +:+ magnitude)
    /\ format_currency Lit.f_neg_42 UK 2 = Ok ("-" +:+ ("£" +:+ "" +:+ magnitude)).
Proof.
  apply (format_currency_sign_first Lit.f_neg_42 UK 2);
    [reflexivity | vm_compute; split; discriminate].
Defined.

(** ** The scientific renderer *)

Section Scientific.

Import Host.

Lemma mantissa_repr_shape n p :
  0 < p ->
  exists d frac,
    mantissa_repr n p = String d ("." +:+ frac)
    /\ Str.is_digit d = true
    /\ Str.all_digits frac = true
    /\ String.length frac = Z.to_nat p.
Proof.
  intros Hp. unfold mantissa_repr. cbn [digits_fixed].
  destruct (Z.ltb_spec 0 p) as [_|?]; [|lia].
  eexists _, _. split; [reflexivity|]. split; [|split].
  - apply digit_char_is_digit, digit_range.
  - apply digits_fixed_all_digits.
  - apply digits_fixed_length.
Qed.

Lemma exp_repr_shape E :
  exists es ed,
    exp_repr E = String es ed
    /\ (es = "+" \/ es = "-")%char
    /\ Str.all_digits ed = true
    /\ (2 <= String.length ed)%nat.
Proof.
  unfold exp_repr.
  pose proof (int_digits_all_digits (Z.abs E)) as Hall.
  set (ds := int_digits (Z.abs E)) in *.
  exists (if E <? 0 then "-"%char else "+"%char),
    (if (String.length ds <? 2)%nat then "0" +:+ ds else ds).
  split; [by destruct (E <? 0)|].
  split; [destruct (E <? 0); auto|].
  destruct (Nat.ltb_spec (String.length ds) 2) as [Hlt|Hge].
  - split; [done|].
    pose proof (int_digits_length (Z.abs E)). fold ds in H.
    str_simpl. lia.
  - done.
Qed.

(** the form [d.ddde±XX] of the host for a finite value *)
Lemma format_e_finite x p :
  is_finite x = true -> 0 < p <= INT_MAX ->
  exists sign d frac es ed,
    format_e p x = Ok (sign +:+ String d ("." +:+ frac) +:+ "e" +:+ String es ed)
    /\ (sign = "" \/ sign = "-")
    /\ Str.is_digit d = true
    /\ Str.all_digits frac = true
    /\ String.length frac = Z.to_nat p
    /\ (es = "+" \/ es = "-")%char
    /\ Str.all_digits ed = true
    /\ (2 <= String.length ed)%nat.
Proof.
  intros Hfin [Hp Hmax]. unfold format_e.
  rewrite precision_field_ok by lia. cbn [bind].
  assert (forall s, sign_str s = "" \/ sign_str s = "-") as Hsign
    by (intros []; auto).
  destruct x as [s|s| |s m e]; try discriminate.
  - destruct (mantissa_repr_shape 0 p Hp) as (d & frac & -> & Hd & Hfrac & Hlen).
    destruct (exp_repr_shape 0) as (es & ed & -> & Hes & Hed & Hel).
    exists (sign_str s), d, frac, es, ed. auto 10.
  - destruct (sci_parts m e p) as [n E].
    destruct (mantissa_repr_shape n p Hp) as (d & frac & -> & Hd & Hfrac & Hlen).
    destruct (exp_repr_shape E) as (es & ed & -> & Hes & Hed & Hel).
    exists (sign_str s), d, frac, es, ed. auto 10.
Qed.

Lemma format_scientific_raw value cfg digits sign d frac es ed :
  format_e digits value
    = Ok (sign +:+ String d ("." +:+ frac) +:+ "e" +:+ String es ed) ->
  sign = "" \/ sign = "-" ->
  Str.is_digit d = true -> Str.all_digits frac = true ->
  (es = "+" \/ es = "-")%char -> Str.all_digits ed = true ->
  format_scientific value cfg digits
    = Ok (sign +:+ String d (decimal_sep cfg +:+ frac) +:+ "e" +:+ String es ed).
Proof.
  intros Hraw Hsign Hd Hfrac Hes Hed. unfold format_scientific.
  rewrite Hraw. cbn [bind]. case_bool_decide as Hsep.
  - assert (forall c, Str.is_digit c = false -> (c <> "-")%char ->
              Str.contains c (sign +:+ String d "") = false) as Hhead.
    { intros c Hc Hne. rewrite contains_app.
      assert (Str.contains c (String d "") = false) as ->.
      { apply all_digits_contains; [done|].
        cbn [Str.all_digits]. by rewrite Hd. }
      destruct Hsign as [-> | ->]; [done|]. cbn [Str.contains orb].
      by destruct (Ascii.eqb_spec "-" c) as [<-|_]. }
    assert (sign +:+ String d ("." +:+ frac)
            = (sign +:+ String d "") +:+ String "." frac) as Hmant
      by (by rewrite str_app_assoc).
    assert (Str.contains "e" (sign +:+ String d ("." +:+ frac)) = false) as Hne.
    { rewrite Hmant, contains_app, Hhead by done. cbn [Str.contains orb].
      by rewrite (all_digits_contains "e" frac). }
    assert (Str.contains "e" (String es ed) = false) as Hexp.
    { cbn [Str.contains]. rewrite (all_digits_contains "e" ed) by done.
      by destruct Hes as [-> | ->]. }
    replace (sign +:+ String d ("." +:+ frac) +:+ "e" +:+ String es ed)
      with ((sign +:+ String d ("." +:+ frac)) +:+ String "e" (String es ed))
      by (by rewrite str_app_assoc).
    rewrite split_at_first, split_no_sep by done.
    cbn [unpack2 bind].
    rewrite Hmant, replace_first_at by (by apply Hhead).
    rewrite !str_app_assoc, !str_app_cons, str_app_nil_l.
    by rewrite !str_app_assoc.
  - by rewrite Hsep.
Qed.

End Scientific.

(** C6.  For a finite value the host prints the form [d.ddde±XX]: an
    optional ["-"], one digit, the point, three digits, ["e"], a sign and at
    least two digits.  [format_scientific] returns that string with the
    point of the mantissa, and nothing else, replaced by the decimal
    separator of the locale; the exponent marker, its sign and its digits
    are those of the host.  When the separator is ["."] the string of the
    host is returned as it is. *)
Theorem format_scientific_swaps_point (value : float) (cfg : locale_cfg) :
  Host.is_finite value = true ->
  (exists (sign : string) (d : ascii) (frac : string) (es : ascii) (ed : string),
     Host.format_e 3 value
       = Ok (sign +:+ String d ("." +:+ frac) +:+ "e" +:+ String es ed)
     /\ format_scientific value cfg 3
       = Ok (sign +:+ String d (decimal_sep cfg +:+ frac) +:+ "e" +:+ String es ed)
     /\ (sign = "" \/ sign = "-")
     /\ Str.is_digit d = true
     /\ Str.all_digits frac = true /\ String.length frac = 3%nat
     /\ (es = "+" \/ es = "-")%char
     /\ Str.all_digits ed = true /\ (2 <= String.length ed)%nat)
  /\ (decimal_sep cfg = "." -> format_scientific value cfg 3 = Host.format_e 3 value).
Proof.
  intros Hfin. split.
  - destruct (format_e_finite value 3 Hfin ltac:(unfold Host.INT_MAX; lia))
      as (sign & d & frac & es & ed & Hraw & Hsign & Hd & Hfrac & Hlen & Hes & Hed & Hel).
    exists sign, d, frac, es, ed.
    split; [done|]. split; [by apply format_scientific_raw|]. auto 10.
  - intros Hsep. unfold format_scientific.
    destruct (Host.format_e 3 value) as [raw|e]; [|done]. cbn [bind].
    case_bool_decide; [congruence|done].
Qed.

Lemma format_scientific_swaps_point_witness :
  exists (sign : string) (d : ascii) (frac : string) (es : ascii) (ed : string),
    Host.format_e 3 Lit.f_neg_1234_5
      = Ok (sign +:+ String d ("." +:+ frac) +:+ "e" +:+ String es ed)
    /\ format_scientific Lit.f_neg_1234_5 EU 3
      = Ok (sign +:+ String d (decimal_sep EU +:+ frac) +:+ "e" +:+ String es ed)
    /\ (sign = "" \/ sign = "-")
    /\ Str.is_digit d = true
    /\ Str.all_digits frac = true /\ String.length frac = 3%nat
    /\ (es = "+" \/ es = "-")%char
    /\ Str.all_digits ed = true /\ (2 <= String.length ed)%nat.
Proof.
  apply (format_scientific_swaps_point Lit.f_neg_1234_5 EU). reflexivity.
Defined.

Example format_scientific_eu :
  Host.format_e 3 Lit.f_neg_1234_5 = Ok "-1.234e+03"
  /\ format_scientific Lit.f_neg_1234_5 EU 3 = Ok "-1,234e+03".
Proof. vm_compute. split; reflexivity. Qed.

(** ** The dispatcher *)

Section Dispatcher.

Lemma locale_lookup locale :
  LOCALE_CONFIG !! locale =
    if decide (locale = "US") then Some US
    else if decide (locale = "EU") then Some EU
    else if decide (locale = "UK") then Some UK
    else None.
Proof.
  unfold LOCALE_CONFIG. rewrite !lookup_insert, lookup_empty.
  repeat case_decide; congruence.
Qed.

(** the keys of the registry are those that [list_locales] returns *)
Lemma locale_keys locale :
  is_Some (LOCALE_CONFIG !! locale) <-> locale ∈ list_locales.
Proof.
  rewrite locale_lookup. unfold list_locales.
  rewrite !elem_of_cons, elem_of_nil. split.
  - intros Hkey. repeat case_decide; auto. by destruct Hkey.
  - intros [->|[->|[->|[]]]]; by eexists.
Qed.

Lemma dispatch_currency value locale cfg style decimals :
  LOCALE_CONFIG !! locale = Some cfg -> Str.lower style = "currency" ->
  format_number value locale style decimals
    = format_currency value cfg (default 2 decimals).
Proof. intros Hcfg Hs. unfold format_number. by rewrite Hcfg, Hs. Qed.

Lemma dispatch_grouped value locale cfg style decimals :
  LOCALE_CONFIG !! locale = Some cfg -> Str.lower style ∈ ["grouped"; "comma"] ->
  format_number value locale style decimals
    = format_plain value cfg (default 0 decimals) true.
Proof.
  intros Hcfg Hs. unfold format_number. rewrite Hcfg.
  rewrite !elem_of_cons, elem_of_nil in Hs.
  destruct Hs as [Hs|[Hs|[]]]; rewrite Hs; reflexivity.
Qed.

Lemma dispatch_rounded value locale cfg style decimals :
  LOCALE_CONFIG !! locale = Some cfg -> Str.lower style ∈ ["rounded"; "round"] ->
  format_number value locale style decimals
    = format_plain value cfg (default 0 decimals) false.
Proof.
  intros Hcfg Hs. unfold format_number. rewrite Hcfg.
  rewrite !elem_of_cons, elem_of_nil in Hs.
  destruct Hs as [Hs|[Hs|[]]]; rewrite Hs; reflexivity.
Qed.

Lemma dispatch_scientific value locale cfg style decimals :
  LOCALE_CONFIG !! locale = Some cfg -> Str.lower style ∈ ["scientific"; "sci"] ->
  format_number value locale style decimals = format_scientific value cfg 3.
Proof.
  intros Hcfg Hs. unfold format_number. rewrite Hcfg.
  rewrite !elem_of_cons, elem_of_nil in Hs.
  destruct Hs as [Hs|[Hs|[]]]; rewrite Hs; reflexivity.
Qed.

Lemma dispatch_unknown_style value locale cfg style decimals :
  LOCALE_CONFIG !! locale = Some cfg -> Str.lower style ∉ recognized_styles ->
  format_number value locale style decimals = Raise (unknown_style (Str.lower style)).
Proof.
  intros Hcfg Hs. unfold format_number. rewrite Hcfg. cbv zeta.
  unfold recognized_styles in Hs.
  repeat case_bool_decide; try done; exfalso; apply Hs;
    repeat match goal with
           | Hin : _ ∈ _ |- _ => rewrite !elem_of_cons, elem_of_nil in Hin
           end;
    rewrite !elem_of_cons, elem_of_nil; tauto.
Qed.

Lemma recognized_cases style :
  style ∈ recognized_styles ->
  style = "currency" \/ style ∈ ["grouped"; "comma"]
  \/ style ∈ ["rounded"; "round"] \/ style ∈ ["scientific"; "sci"].
Proof. unfold recognized_styles. rewrite !elem_of_cons, !elem_of_nil. tauto. Qed.

Lemma errors_differ locale style : unknown_style style <> unknown_locale locale.
Proof. unfold unknown_style, unknown_locale. str_simpl. congruence. Qed.

Lemma format_currency_total value cfg decimals :
  0 <= decimals <= Host.INT_MAX ->
  exists s, format_currency value cfg decimals = Ok s.
Proof.
  intros Hd. unfold format_currency.
  destruct (format_plain_total value cfg decimals true Hd) as [base ->].
  cbn [bind]. destruct (Str.startswith "-" base); eauto.
Qed.

Lemma format_scientific_total value cfg :
  Host.is_finite value = true -> exists s, format_scientific value cfg 3 = Ok s.
Proof.
  intros Hfin.
  destruct (format_e_finite value 3 Hfin ltac:(unfold Host.INT_MAX; lia))
    as (sign & d & frac & es & ed & Hraw & Hsign & Hd & Hfrac & _ & Hes & Hed & _).
  erewrite format_scientific_raw by done. eauto.
Qed.

End Dispatcher.

(** C1, as the specification states it, fails: with a known locale and a
    known style the dispatcher still fails, with errors that are neither
    [UnknownLocale] nor [UnknownStyle], on a negative number of decimals, on
    a number of decimals above the C [int] range, and on an infinite value
    in scientific style under a locale whose decimal separator is not the
    point. *)
Lemma format_number_other_failures :
  is_Some (LOCALE_CONFIG !! "US")
  /\ "currency" ∈ recognized_styles
  /\ format_number Lit.f_5 "US" "currency" (Some (-1))
     = Raise (ValueError "Format specifier missing precision")
  /\ format_number Lit.f_5 "US" "currency" (Some 2147483648)
     = Raise (ValueError "precision too big")
  /\ is_Some (LOCALE_CONFIG !! "EU")
  /\ "sci" ∈ recognized_styles
  /\ format_number Lit.inf "EU" "sci" None
     = Raise (ValueError "not enough values to unpack (expected 2, got 1)").
Proof.
  repeat split; try (by vm_compute); try (by eexists);
    unfold recognized_styles; rewrite !elem_of_cons; tauto.
Qed.

(** C1, amended.  For a finite value and a number of decimals that is
    absent or from [0] to [2^31 - 1], [format_number] fails with
    [UnknownLocale] exactly when the locale is not a key of the registry,
    the keys being compared as they are written; it fails with an
    [UnknownStyle] error exactly when the locale is a key and the
    lower-cased style is none of the seven style names, and for a style of
    ASCII characters that error carries the lower-cased style; in every
    other case it returns a string, so that these are its only failures. *)
Theorem format_number_failures (value : float) (locale style : string)
    (decimals : option Z) :
  Host.is_finite value = true ->
  (forall d, decimals = Some d -> 0 <= d <= Host.INT_MAX) ->
  (format_number value locale style decimals = Raise (UnknownLocale locale)
   <-> LOCALE_CONFIG !! locale = None)
  /\ ((exists s, format_number value locale style decimals
                 = Raise (UnknownStyle s))
      <-> is_Some (LOCALE_CONFIG !! locale)
          /\ Str.lower style ∉ recognized_styles)
  /\ (Str.is_ascii style = true ->
      is_Some (LOCALE_CONFIG !! locale) ->
      Str.lower style ∉ recognized_styles ->
      format_number value locale style decimals
      = Raise (UnknownStyle (Str.lower style)))
  /\ (is_Some (LOCALE_CONFIG !! locale) ->
      Str.lower style ∈ recognized_styles ->
      exists s, format_number value locale style decimals = Ok s)
  /\ (forall e, format_number value locale style decimals = Raise e ->
      e = UnknownLocale locale \/ exists s, e = UnknownStyle s)
  /\ LOCALE_CONFIG !! "us" = None.
Proof.
  intros Hfin Hdec.
  assert (forall n, 0 <= n <= Host.INT_MAX -> 0 <= default n decimals <= Host.INT_MAX)
    as Hdef.
  { intros n Hn. destruct decimals as [d|]; simpl; [by apply Hdec|done]. }
  assert (forall cfg, LOCALE_CONFIG !! locale = Some cfg ->
            Str.lower style ∈ recognized_styles ->
            exists s, format_number value locale style decimals = Ok s) as Hok.
  { intros cfg Hcfg Hs.
    destruct (recognized_cases _ Hs) as [Hc|[Hg|[Hr|Hsci]]].
    - rewrite (dispatch_currency _ _ cfg) by done.
      apply format_currency_total, Hdef. unfold Host.INT_MAX. lia.
    - rewrite (dispatch_grouped _ _ cfg) by done.
      apply format_plain_total, Hdef. unfold Host.INT_MAX. lia.
    - rewrite (dispatch_rounded _ _ cfg) by done.
      apply format_plain_total, Hdef. unfold Host.INT_MAX. lia.
    - rewrite (dispatch_scientific _ _ cfg) by done.
      by apply format_scientific_total. }
  assert (LOCALE_CONFIG !! "us" = None) as Hus by (by vm_compute).
  unfold UnknownLocale, UnknownStyle.
  destruct (LOCALE_CONFIG !! locale) as [cfg|] eqn:Hcfg.
  - destruct (decide (Str.lower style ∈ recognized_styles)) as [Hs|Hs].
    + destruct (Hok cfg eq_refl Hs) as [s Hs']. rewrite Hs'.
      split; [split; discriminate|].
      split; [split; [by intros [? ?]|by intros [_ ?]]|].
      split; [done|]. split; [by eauto|]. split; [discriminate|done].
    + rewrite (dispatch_unknown_style value locale cfg style decimals Hcfg Hs).
      split; [split; [|discriminate]|].
      { intros Heq. exfalso.
        apply (errors_differ locale (Str.lower style)). congruence. }
      split; [split; [by eauto|by eauto]|].
      split; [done|]. split; [done|]. split; [|done].
      intros e [= <-]. right. eauto.
  - assert (format_number value locale style decimals
            = Raise (unknown_locale locale)) as ->
      by (unfold format_number; by rewrite Hcfg).
    split; [done|].
    split; [split; [|by intros [[? ?] _]]|].
    { intros [s Heq]. exfalso.
      apply (errors_differ locale s). congruence. }
    split; [by intros _ [? ?]|].
    split; [by intros [? ?]|]. split; [|done].
    intros e [= <-]. by left.
Qed.

Lemma format_number_failures_witness :
  (format_number Lit.f_5 "us" "Currency" (Some 2) = Raise (UnknownLocale "us")
   <-> LOCALE_CONFIG !! "us" = None)
  /\ ((exists s, format_number Lit.f_5 "us" "Currency" (Some 2)
                 = Raise (UnknownStyle s))
      <-> is_Some (LOCALE_CONFIG !! "us")
          /\ Str.lower "Currency" ∉ recognized_styles)
  /\ (Str.is_ascii "Currency" = true ->
      is_Some (LOCALE_CONFIG !! "us") ->
      Str.lower "Currency" ∉ recognized_styles ->
      format_number Lit.f_5 "us" "Currency" (Some 2)
      = Raise (UnknownStyle (Str.lower "Currency")))
  /\ (is_Some (LOCALE_CONFIG !! "us") ->
      Str.lower "Currency" ∈ recognized_styles ->
      exists s, format_number Lit.f_5 "us" "Currency" (Some 2) = Ok s)
  /\ (forall e, format_number Lit.f_5 "us" "Currency" (Some 2) = Raise e ->
      e = UnknownLocale "us" \/ exists s, e = UnknownStyle s)
  /\ LOCALE_CONFIG !! "us" = None.
Proof.
  apply (format_number_failures Lit.f_5 "us" "Currency" (Some 2));
    [reflexivity | intros d [= <-]; vm_compute; split; discriminate].
Defined.

Example format_number_errors :
  format_number Lit.f_5 "US" "bogus_style" None = Raise (UnknownStyle "bogus_style")
  /\ format_number Lit.f_5 "XX" "currency" None = Raise (UnknownLocale "XX")
  /\ format_number Lit.f_5 "XX" "bogus_style" None = Raise (UnknownLocale "XX")
  /\ format_number Lit.f_neg_42 "UK" "grouped" None = Ok "-42"
  /\ format_number Lit.f_1234567 "US" "grouped" None = Ok "1,234,567".
Proof. vm_compute. repeat split. Qed.

(** C7.  Under a known locale, the currency style renders with two decimals
    when none is given and the grouped and rounded styles with none; a given
    number of decimals is the one used by these three styles; the scientific
    style renders with three digits after the point of the mantissa whatever
    number of decimals is given.  For example [1234.5678] in US scientific
    style is ["1.235e+03"] for every [decimals] argument. *)
Theorem format_number_defaults (value : float) (locale style : string)
    (cfg : locale_cfg) :
  LOCALE_CONFIG !! locale = Some cfg ->
  (Str.lower style = "currency" ->
     format_number value locale style None = format_currency value cfg 2
     /\ forall d, format_number value locale style (Some d)
                  = format_currency value cfg d)
  /\ (Str.lower style ∈ ["grouped"; "comma"] ->
     format_number value locale style None = format_plain value cfg 0 true
     /\ forall d, format_number value locale style (Some d)
                  = format_plain value cfg d true)
  /\ (Str.lower style ∈ ["rounded"; "round"] ->
     format_number value locale style None = format_plain value cfg 0 false
     /\ forall d, format_number value locale style (Some d)
                  = format_plain value cfg d false)
  /\ (Str.lower style ∈ ["scientific"; "sci"] ->
     forall decimals, format_number value locale style decimals
                      = format_scientific value cfg 3)
  /\ (forall decimals,
        format_number Lit.f_1234_5678 "US" "scientific" decimals = Ok "1.235e+03").
Proof.
  intros Hcfg.
  split; [intros Hs; split; [|intros d]; by rewrite (dispatch_currency _ _ cfg)|].
  split; [intros Hs; split; [|intros d]; by rewrite (dispatch_grouped _ _ cfg)|].
  split; [intros Hs; split; [|intros d]; by rewrite (dispatch_rounded _ _ cfg)|].
  split; [intros Hs decimals; by rewrite (dispatch_scientific _ _ cfg)|].
  intros decimals. rewrite (dispatch_scientific _ _ US).
  - by vm_compute.
  - by vm_compute.
  - rewrite !elem_of_cons. by left.
Qed.

Lemma format_number_defaults_witness :
  format_number Lit.f_1234_5 "EU" "Currency" None = format_currency Lit.f_1234_5 EU 2
  /\ format_number Lit.f_1234_5 "EU" "Currency" None = Ok "1.234,50 €"
  /\ format_number Lit.f_1234_5 "EU" "Currency" (Some 0) = Ok "1.234 €".
Proof.
  pose proof (format_number_defaults Lit.f_1234_5 "EU" "Currency" EU eq_refl)
    as (Hcur & _).
  destruct (Hcur eq_refl) as [Hnone Hsome].
  split; [exact Hnone|]. split; [rewrite Hnone | rewrite Hsome]; reflexivity.
Defined.

(** ** The request boundary *)

(** C8, as the specification states it, fails: a negative number of decimals
    is not reported as [InvalidDecimals]. *)
Lemma negative_decimals_not_invalid_decimals :
  let request :=
    POST (Some {| j_value := Some (PyFloat Lit.f_5); j_locale := Some "US";
                  j_style := Some "currency"; j_decimals := Some (DecInt (-1)) |}) in
  format_number Lit.f_5 "US" "currency" (Some (-1))
    = Raise (ValueError "Format specifier missing precision")
  /\ format_endpoint request = Error400 "Format specifier missing precision"
  /\ format_endpoint request <> InvalidDecimals.
Proof. vm_compute. repeat split. discriminate. Qed.

Lemma plain_negative_precision value cfg d grouping :
  - Host.int_str_limit < d < 0 ->
  format_plain value cfg d grouping = Raise Host.missing_precision.
Proof.
  intros Hd. unfold format_plain, Host.format_f.
  by rewrite precision_field_negative.
Qed.

(** C8, amended.  For every request that supplies a negative number of
    decimals (of at most 4300 digits, as every integer that the endpoint
    reads is), with a value that converts to a float, a known locale and a
    style other than the scientific one, formatting fails and no string is
    returned: the host refuses the format specification, [format_number]
    raises its [ValueError], and the boundary answers with that message as a
    client error, which is not the [InvalidDecimals] answer. *)
Theorem negative_decimals_fail (request : request) (value : py_obj)
    (x : float) (locale style : string) (d : Z) :
  read_request request = inr (Some value, locale, style, Some d) ->
  py_float value = Ok x ->
  is_Some (LOCALE_CONFIG !! locale) ->
  Str.lower style ∈ decimal_styles ->
  - Host.int_str_limit < d < 0 ->
  format_number x locale style (Some d)
    = Raise (ValueError "Format specifier missing precision")
  /\ format_endpoint request = Error400 "Format specifier missing precision"
  /\ format_endpoint request <> InvalidDecimals.
Proof.
  intros Hreq Hval [cfg Hcfg] Hs Hd.
  pose proof (fun g => plain_negative_precision x cfg d g Hd) as Hplain.
  assert (format_number x locale style (Some d) = Raise Host.missing_precision)
    as Hnum.
  { unfold decimal_styles in Hs. rewrite !elem_of_cons, elem_of_nil in Hs.
    destruct Hs as [Hs|[Hs|[Hs|[Hs|[Hs|[]]]]]].
    - rewrite (dispatch_currency _ _ cfg) by done.
      unfold format_currency. simpl default. by rewrite Hplain.
    - rewrite (dispatch_grouped _ _ cfg) by (rewrite ?elem_of_cons; auto).
      apply Hplain.
    - rewrite (dispatch_grouped _ _ cfg) by (rewrite ?elem_of_cons; auto).
      apply Hplain.
    - rewrite (dispatch_rounded _ _ cfg) by (rewrite ?elem_of_cons; auto).
      apply Hplain.
    - rewrite (dispatch_rounded _ _ cfg) by (rewrite ?elem_of_cons; auto).
      apply Hplain. }
  assert (format_endpoint request = Error400 "Format specifier missing precision")
    as Hresp by (unfold format_endpoint; by rewrite Hreq, Hval, Hnum).
  split; [done|]. split; [done|]. by rewrite Hresp.
Qed.

Lemma negative_decimals_fail_witness :
  let request := GET (Some "1234.5") (Some "EU") (Some "Grouped") (Some "-2") in
  format_number Lit.f_1234_5 "EU" "Grouped" (Some (-2))
    = Raise (ValueError "Format specifier missing precision")
  /\ format_endpoint request = Error400 "Format specifier missing precision"
  /\ format_endpoint request <> InvalidDecimals.
Proof.
  apply (negative_decimals_fail
           (GET (Some "1234.5") (Some "EU") (Some "Grouped") (Some "-2"))
           (PyStr "1234.5") Lit.f_1234_5 "EU" "Grouped" (-2)).
  - vm_compute. reflexivity.
  - vm_compute. reflexivity.
  - vm_compute. eexists. reflexivity.
  - vm_compute. repeat constructor.
  - vm_compute. split; reflexivity.
Defined.

(** C9, as the specification states it, fails: text that converts to
    infinity or to NaN is accepted and a formatted string is returned. *)
Lemma infinite_value_is_formatted :
  format_endpoint (GET (Some "inf") None None None)
    = Ok200 Lit.inf "US" "currency" None "$inf."
  /\ format_endpoint (GET (Some "nan") None None None)
    = Ok200 Lit.nan "US" "currency" None "$nan."
  /\ format_endpoint (GET (Some "-Infinity") (Some "EU") (Some "grouped") None)
    = Ok200 (S754_infinity true) "EU" "grouped" None "-inf".
Proof. vm_compute. repeat split. Qed.

Lemma float_of_str_raises text e :
  Parse.float_of_str text = Raise e -> exists msg, e = ValueError msg.
Proof.
  unfold Parse.float_of_str.
  destruct (_ ≫= _) as [x|]; [discriminate|]. intros [= <-]. eauto.
Qed.

(** C9, amended.  Of a request whose texts are made of ASCII characters
    and that gets past the reading of its fields (that is, whose [decimals],
    when sent as text in a JSON body, is an integer): when the value is
    absent the boundary answers [MissingValue]; when the value is a text
    that the host's [float] does not convert it answers [InvalidValue]; no
    formatted string is returned in either case.  A text that [float]
    converts is handed to the dispatcher whatever the float is, an infinity
    or a NaN included, and the answer is the dispatcher's: its string, or
    its error as a client error.  So ["inf"] and ["nan"] under the default
    locale and style are answered with ["$inf."] and ["$nan."], and ["inf"]
    in EU scientific style with the dispatcher's unpacking error. *)
Theorem unparsed_value_rejected (request : request) (value : option py_obj)
    (locale style : string) (decimals : option Z) :
  ascii_request request = true ->
  read_request request = inr (value, locale, style, decimals) ->
  (value = None -> format_endpoint request = MissingValue)
  /\ (forall text e,
        value = Some (PyStr text) -> Parse.float_of_str text = Raise e ->
        format_endpoint request = InvalidValue)
  /\ (forall text x,
        value = Some (PyStr text) -> Parse.float_of_str text = Ok x ->
        format_endpoint request =
          match format_number x locale style decimals with
          | Ok formatted => Ok200 x locale style decimals formatted
          | Raise (ValueError msg) => Error400 msg
          | Raise e => Error500 e
          end)
  /\ format_endpoint (GET (Some "inf") None None None)
     = Ok200 Lit.inf "US" "currency" None "$inf."
  /\ format_endpoint (GET (Some "nan") None None None)
     = Ok200 Lit.nan "US" "currency" None "$nan."
  /\ format_endpoint (GET (Some "inf") (Some "EU") (Some "sci") None)
     = Error400 "not enough values to unpack (expected 2, got 1)".
Proof.
  intros _ Hreq. unfold format_endpoint at 1 2 3. rewrite Hreq.
  split; [by intros ->|].
  split.
  { intros text e -> Hraise. cbn [py_float].
    destruct (float_of_str_raises _ _ Hraise) as [msg ->].
    by rewrite Hraise. }
  split.
  { intros text x -> Hok. cbn [py_float]. rewrite Hok.
    by destruct (format_number x locale style decimals) as [f|[msg|msg|msg]]. }
  by vm_compute.
Qed.

Lemma unparsed_value_rejected_witness :
  format_endpoint (GET (Some "12abc") None None (Some "2")) = InvalidValue.
Proof.
  refine (proj1 (proj2 (unparsed_value_rejected
                   (GET (Some "12abc") None None (Some "2"))
                   (Some (PyStr "12abc")) "US" "currency" (Some 2) _ _))
                "12abc" (ValueError "could not convert string to float") _ _);
    vm_compute; reflexivity.
Defined.

Example format_endpoint_errors :
  format_endpoint (GET None None None None) = MissingValue
  /\ format_endpoint (POST None) = MissingValue
  /\ format_endpoint (GET (Some "abc") None None None) = InvalidValue
  /\ format_endpoint (POST (Some {| j_value := Some PyContainer; j_locale := None;
                                   j_style := None; j_decimals := None |}))
     = InvalidValue
  /\ format_endpoint (POST (Some {| j_value := None; j_locale := None;
                                   j_style := None;
                                   j_decimals := Some (DecStr "two") |}))
     = InvalidDecimals
  /\ format_endpoint (GET (Some "1234.5") (Some "EU") None None)
     = Ok200 Lit.f_1234_5 "EU" "currency" None "1.234,50 €".
Proof. vm_compute. repeat split. Qed.

(** * Further properties of the program *)

(** ** Grouping, continued *)

Section GroupingMore.

Implicit Types (s sep : string) (c : ascii).

(** the groups of a string of more than three characters *)
Lemma group_thousands_structure s sep :
  (3 < String.length s)%nat ->
  exists first rest,
    s = Str.join "" (first :: rest)
    /\ (1 <= String.length first <= 3)%nat
    /\ Forall (fun g => String.length g = 3%nat) rest
    /\ (3 * length rest + String.length first = String.length s)%nat
    /\ group_thousands s sep = Str.join sep (first :: rest).
Proof.
  intros Hgt. rewrite group_thousands_chunks by done.
  set (r := reverse (Str.chars s)).
  assert (length r = String.length s) as Hr
    by (unfold r; by rewrite length_reverse, chars_length).
  destruct (chunks3_spec r) as (init & last & Heq & Hinit & Hlast & Hcat & _).
  { intros Hnil. rewrite Hnil in Hr. simpl in Hr. lia. }
  exists (Str.of_chars (reverse last)),
    (Str.of_chars <$> (reverse <$> reverse init)).
  assert (reverse <$> reverse (chunks3 r)
          = reverse last :: (reverse <$> reverse init)) as Hgroups.
  { rewrite Heq, reverse_app. reflexivity. }
  split; [|split; [|split; [|split]]].
  - rewrite <- (of_chars_chars s) at 1.
    rewrite <- (reverse_involutive (Str.chars s)).
    fold r. rewrite <- Hcat, <- concat_reverse_groups, Hgroups.
    symmetry. apply (join_empty_of_chars (_ :: _)).
  - rewrite of_chars_length, length_reverse. lia.
  - rewrite Forall_fmap, Forall_fmap, Forall_reverse.
    eapply Forall_impl; [exact Hinit|].
    intros g Hg. simpl. by rewrite of_chars_length, length_reverse.
  - rewrite of_chars_length, !length_fmap, !length_reverse, <- Hr, <- Hcat, Heq.
    rewrite concat_app, length_app. simpl. rewrite app_nil_r.
    assert (length (concat init) = 3 * length init)%nat as ->; [|lia].
    clear -Hinit. induction Hinit as [|g init Hg _ IH]; [done|].
    simpl. rewrite length_app, IH, Hg. lia.
  - by rewrite Hgroups.
Qed.

Lemma join_length sep (first : string) (rest : list string) :
  Forall (fun g => String.length g = 3%nat) rest ->
  String.length (Str.join sep (first :: rest))
  = (String.length first + length rest * (String.length sep + 3))%nat.
Proof.
  intros Hrest. revert first.
  induction Hrest as [|g rest Hg _ IH]; intros first; [simpl; lia|].
  change (Str.join sep (first :: g :: rest))
    with (first +:+ sep +:+ Str.join sep (g :: rest)).
  rewrite !str_app_length, IH, Hg. simpl. lia.
Qed.

End GroupingMore.

(** The grouped string is the input with one separator added for every
    three characters after the first: its length is the length of the input
    plus [max (len - 1) 0 // 3] times the length of the separator, the
    subtraction below stopping at zero, so that the empty string, like
    every string of at most three characters, gets no separator.  A string
    of four to six characters gets exactly one separator. *)
Theorem group_thousands_length (integer_part sep : string) :
  String.length (group_thousands integer_part sep)
  = (String.length integer_part
     + (String.length integer_part - 1) / 3 * String.length sep)%nat.
Proof.
  destruct (decide (String.length integer_part <= 3)%nat) as [Hle|Hgt].
  - unfold group_thousands.
    destruct (Nat.leb_spec (String.length integer_part) 3) as [_|?]; [|lia].
    assert ((String.length integer_part - 1) / 3 = 0)%nat as ->; [|lia].
    apply Nat.div_small. lia.
  - destruct (group_thousands_structure integer_part sep ltac:(lia))
      as (first & rest & _ & Hfirst & Hrest & Hlen & ->).
    rewrite join_length by done.
    assert ((String.length integer_part - 1) / 3 = length rest)%nat as ->; [|lia].
    symmetry. apply (Nat.div_unique _ _ _ (String.length first - 1)); lia.
Qed.

Section Ungroup.

Implicit Types (s : string) (c : ascii) (gs : list string).

Lemma join_empty_contains c gs :
  Str.contains c (Str.join "" gs) = false ->
  Forall (fun g => Str.contains c g = false) gs.
Proof.
  induction gs as [|g gs IH]; [constructor|].
  destruct gs as [|g' gs].
  - simpl. by repeat constructor.
  - change (Str.join "" (g :: g' :: gs))
      with (g +:+ "" +:+ Str.join "" (g' :: gs)).
    rewrite str_app_nil_l, contains_app.
    intros [Hg Hgs]%orb_false_iff. constructor; [done|by apply IH].
Qed.

Lemma split_join c (first : string) (rest : list string) :
  Forall (fun g => Str.contains c g = false) (first :: rest) ->
  Str.split c (Str.join (String c "") (first :: rest)) = first :: rest.
Proof.
  revert first. induction rest as [|g rest IH]; intros first Hall.
  - simpl. apply split_no_sep. by inversion Hall.
  - change (Str.join (String c "") (first :: g :: rest))
      with (first +:+ String c "" +:+ Str.join (String c "") (g :: rest)).
    inversion Hall as [|? ? Hfirst Hrest]; subst.
    change (String c "" +:+ Str.join (String c "") (g :: rest))
      with (String c (Str.join (String c "") (g :: rest))).
    rewrite split_at_first by done. f_equal. by apply IH.
Qed.

End Ungroup.

(** Grouping loses nothing: when the separator is one character that does
    not occur in the input, cutting the grouped string at the separator and
    putting the pieces together gives the input back. *)
Theorem group_thousands_ungroup (integer_part : string) (c : ascii) :
  Str.contains c integer_part = false ->
  Str.join "" (Str.split c (group_thousands integer_part (String c "")))
  = integer_part.
Proof.
  intros Hc.
  destruct (decide (String.length integer_part <= 3)%nat) as [Hle|Hgt].
  - unfold group_thousands.
    destruct (Nat.leb_spec (String.length integer_part) 3) as [_|?]; [|lia].
    by rewrite split_no_sep.
  - destruct (group_thousands_structure integer_part (String c "") ltac:(lia))
      as (first & rest & Hs & _ & _ & _ & ->).
    rewrite split_join; [done|].
    apply join_empty_contains. by rewrite <- Hs.
Qed.

Lemma group_thousands_ungroup_witness :
  Str.join "" (Str.split "," (group_thousands "1234567" ",")) = "1234567".
Proof. apply (group_thousands_ungroup "1234567" ","). reflexivity. Defined.

(** ** Values that are not finite *)

Lemma plain_not_finite value cfg decimals grouping :
  Host.is_finite value = false -> 0 <= decimals <= Host.INT_MAX ->
  format_plain value cfg decimals grouping =
    Ok (sign_of value
        +:+ (match value with S754_nan => "nan" | _ => "inf" end)
        +:+ (if 0 <? decimals then decimal_sep cfg else "")).
Proof.
  intros Hfin Hd. unfold format_plain, Host.format_f, sign_of.
  rewrite precision_field_ok by done.
  destruct value as [s|s| |s m e]; try discriminate; cbn [bind SFabs].
  - change (Host.sign_str false +:+ "inf") with "inf". cbn.
    destruct grouping, (0 <? decimals); by rewrite ?str_app_nil_r.
  - cbn. destruct grouping, (0 <? decimals); by rewrite ?str_app_nil_r.
Qed.

(** [format_plain] does not refuse an infinity or a NaN: with decimals from
    [0] to [2^31 - 1] it prints the host's ["inf"] or ["nan"] after the
    sign, never grouped, and, when decimals are asked for, the decimal
    separator with nothing after it. *)
Theorem format_plain_not_finite (value : float) (cfg : locale_cfg)
    (decimals : Z) (grouping : bool) :
  Host.is_finite value = false -> 0 <= decimals <= Host.INT_MAX ->
  format_plain value cfg decimals grouping =
    Ok ((if Host.lt_zero value then "-" else "")
        +:+ (match value with S754_nan => "nan" | _ => "inf" end)
        +:+ (if 0 <? decimals then decimal_sep cfg else "")).
Proof. apply plain_not_finite. Qed.

Lemma format_plain_not_finite_witness :
  format_plain (S754_infinity true) EU 2 true = Ok "-inf,".
Proof.
  apply (format_plain_not_finite (S754_infinity true) EU 2 true);
    [reflexivity | vm_compute; split; discriminate].
Defined.

Lemma scientific_not_finite value cfg digits :
  Host.is_finite value = false -> 0 <= digits <= Host.INT_MAX ->
  let raw := (match value with
              | S754_infinity true => "-inf"
              | S754_nan => "nan"
              | _ => "inf"
              end) in
  (decimal_sep cfg = "." -> format_scientific value cfg digits = Ok raw)
  /\ (decimal_sep cfg <> "." ->
      format_scientific value cfg digits
      = Raise (ValueError "not enough values to unpack (expected 2, got 1)")).
Proof.
  intros Hfin Hd raw. unfold format_scientific, Host.format_e.
  rewrite precision_field_ok by done.
  destruct value as [s|s| |s m e]; try discriminate; cbn [bind].
  - destruct s; (split; intros Hsep; case_bool_decide; try done; reflexivity).
  - split; intros Hsep; case_bool_decide; try done; reflexivity.
Qed.

(** On an infinity or a NaN, with a number of digits from [0] to [2^31 - 1]
    (the dispatcher asks for 3), [format_scientific] returns the host's
    ["inf"], ["-inf"] or ["nan"] when the decimal separator of the locale is
    the point, and fails otherwise: the string has no ["e"] to split at, and
    the unpacking raises [ValueError]. *)
Theorem format_scientific_not_finite (value : float) (cfg : locale_cfg)
    (digits : Z) :
  Host.is_finite value = false -> 0 <= digits <= Host.INT_MAX ->
  let raw := (match value with
              | S754_infinity true => "-inf"
              | S754_nan => "nan"
              | _ => "inf"
              end) in
  (decimal_sep cfg = "." -> format_scientific value cfg digits = Ok raw)
  /\ (decimal_sep cfg <> "." ->
      format_scientific value cfg digits
      = Raise (ValueError "not enough values to unpack (expected 2, got 1)")).
Proof. apply scientific_not_finite. Qed.

Lemma format_scientific_not_finite_witness :
  format_scientific (S754_infinity true) EU 3
  = Raise (ValueError "not enough values to unpack (expected 2, got 1)").
Proof.
  refine (proj2 (format_scientific_not_finite (S754_infinity true) EU 3 _ _) _);
    [reflexivity | vm_compute; split; discriminate | discriminate].
Defined.

(** ** The plain and the currency renderer, continued *)

Section CurrencyMore.

Import Host.

Lemma join_head sep a (first : string) (rest : list string) :
  exists t, Str.join sep (String a first :: rest) = String a t.
Proof. destruct rest; simpl; eauto. Qed.

(** grouping keeps the first character where it is *)
Lemma group_thousands_head a s sep :
  exists t, group_thousands (String a s) sep = String a t.
Proof.
  destruct (decide (String.length (String a s) <= 3)%nat) as [Hle|Hgt].
  - exists s. unfold group_thousands.
    by destruct (Nat.leb_spec (String.length (String a s)) 3) as [_|?]; [|lia].
  - destruct (group_thousands_structure (String a s) sep ltac:(lia))
      as (first & rest & Hs & Hfirst & _ & _ & ->).
    destruct first as [|b first]; [simpl in Hfirst; lia|].
    destruct (join_head "" b first rest) as [t Ht]. rewrite Ht in Hs.
    injection Hs as -> _. apply join_head.
Qed.

Lemma int_digits_head n : exists d t, int_digits n = String d t /\ Str.is_digit d = true.
Proof.
  unfold int_digits. pose proof (num_digits_pos n) as Hpos.
  destruct (num_digits n) as [|k]; [lia|]. cbn [digits_fixed].
  eexists _, _. split; [reflexivity|]. apply digit_char_is_digit, digit_range.
Qed.

(** the rendering of a magnitude never starts with the sign *)
Lemma plain_abs_unsigned value cfg decimals magnitude :
  0 <= decimals <= INT_MAX ->
  format_plain (SFabs value) cfg decimals true = Ok magnitude ->
  Str.startswith "-" magnitude = false.
Proof.
  intros Hd. destruct (is_finite (SFabs value)) eqn:Hfin.
  - rewrite format_plain_finite by done.
    unfold sign_of. rewrite lt_zero_abs, str_app_nil_l.
    destruct (int_digits_head (rounded_abs (SFabs value) decimals / 10 ^ decimals))
      as (d & t & -> & Hdig).
    unfold grouped_if.
    destruct (group_thousands_head d t (thousands_sep cfg)) as [t' ->].
    intros [= <-]. rewrite str_app_cons. cbn [Str.startswith].
    by destruct (Ascii.eqb_spec d "-") as [->|_].
  - rewrite plain_not_finite by done.
    unfold sign_of. rewrite lt_zero_abs, str_app_nil_l.
    intros [= <-]. by destruct (SFabs value).
Qed.

Lemma num_digits_small q : 0 <= q < 1000 -> (num_digits q <= 3)%nat.
Proof.
  intros Hq. destruct (decide (q = 0)) as [->|Hne]; [vm_compute; lia|].
  destruct (num_digits_bound q ltac:(lia)) as [_ Hlow].
  specialize (Hlow ltac:(lia)).
  assert (10 ^ (Z.of_nat (num_digits q) - 1) < 10 ^ 3) as Hlt by lia.
  apply Z.pow_lt_mono_r_iff in Hlt; lia.
Qed.

End CurrencyMore.

(** Whatever the value, with decimals from [0] to [2^31 - 1] the currency
    renderer returns the sign of the value, if it is below zero, followed by
    the rendering of the magnitude with the symbol put before or after it;
    the rendering of the magnitude itself never starts with ["-"], so the
    sign that is cut off and put back is always the one of the value. *)
Theorem format_currency_wraps_magnitude (value : float) (cfg : locale_cfg)
    (decimals : Z) :
  0 <= decimals <= Host.INT_MAX ->
  exists magnitude : string,
    format_plain (SFabs value) cfg decimals true = Ok magnitude
    /\ Str.startswith "-" magnitude = false
    /\ format_currency value cfg decimals =
         Ok ((if Host.lt_zero value then "-" else "")
             +:+ with_symbol cfg magnitude).
Proof.
  intros Hd.
  destruct (format_plain_total (SFabs value) cfg decimals true Hd)
    as [magnitude Hmag].
  pose proof (plain_abs_unsigned _ _ _ _ Hd Hmag) as Hunsigned.
  exists magnitude. split; [done|]. split; [done|].
  destruct (Host.lt_zero value) eqn:Hneg.
  - by apply format_currency_negative.
  - unfold format_currency.
    rewrite format_plain_abs, Hmag. cbn [bind].
    unfold sign_of. rewrite Hneg, str_app_nil_l, Hunsigned. reflexivity.
Qed.

Lemma format_currency_wraps_magnitude_witness :
  exists magnitude : string,
    format_plain (SFabs Lit.f_1234_5) EU 2 true = Ok magnitude
    /\ Str.startswith "-" magnitude = false
    /\ format_currency Lit.f_1234_5 EU 2 =
         Ok ((if Host.lt_zero Lit.f_1234_5 then "-" else "")
             +:+ with_symbol EU magnitude).
Proof.
  apply (format_currency_wraps_magnitude Lit.f_1234_5 EU 2).
  vm_compute. split; discriminate.
Defined.

(** Grouping changes nothing below one thousand: when the magnitude of a
    finite value, rounded to the decimals asked for, is less than 1000, the
    grouped rendering is the ungrouped one. *)
Theorem format_plain_small_ungrouped (value : float) (cfg : locale_cfg)
    (decimals : Z) :
  Host.is_finite value = true -> 0 <= decimals ->
  rounded_abs value decimals < 1000 * 10 ^ decimals ->
  format_plain value cfg decimals true = format_plain value cfg decimals false.
Proof.
  intros Hfin Hd Hsmall.
  destruct (Z.le_gt_cases decimals Host.INT_MAX) as [Hmax|Hmax].
  2:{ unfold format_plain, Host.format_f.
      by destruct (precision_field_too_big decimals Hmax) as [msg ->]. }
  rewrite !format_plain_finite by done.
  assert (0 < 10 ^ decimals) by (apply Z.pow_pos_nonneg; lia).
  rewrite grouped_if_small; [done|].
  unfold Host.int_digits. rewrite digits_fixed_length.
  apply num_digits_small. split.
  - apply Z.div_pos; [apply rounded_abs_nonneg|lia].
  - apply Z.div_lt_upper_bound; lia.
Qed.

Lemma format_plain_small_ungrouped_witness :
  format_plain Lit.f_neg_42 US 2 true = format_plain Lit.f_neg_42 US 2 false.
Proof.
  apply (format_plain_small_ungrouped Lit.f_neg_42 US 2);
    [reflexivity | lia | vm_compute; reflexivity].
Defined.

(** ** The dispatcher, continued *)

Section DispatcherMore.

(** a string is rendered only at a precision that the host accepts *)
Lemma plain_precision_inv value cfg decimals grouping s :
  format_plain value cfg decimals grouping = Ok s ->
  0 <= decimals <= Host.INT_MAX.
Proof.
  unfold format_plain, Host.format_f.
  destruct (Host.precision_field decimals) as [q|e] eqn:Hq; [|discriminate].
  intros _. by apply precision_field_inv in Hq as [_ ?].
Qed.

Lemma currency_precision_inv value cfg decimals s :
  format_currency value cfg decimals = Ok s ->
  0 <= decimals <= Host.INT_MAX.
Proof.
  unfold format_currency.
  destruct (format_plain value cfg decimals true) as [base|e] eqn:Hbase;
    [|discriminate].
  intros _. by eapply plain_precision_inv.
Qed.

Lemma scientific_point value cfg :
  decimal_sep cfg = "." -> exists s, format_scientific value cfg 3 = Ok s.
Proof.
  intros Hsep. unfold format_scientific, Host.format_e.
  rewrite precision_field_ok by (unfold Host.INT_MAX; lia). cbn [bind].
  case_bool_decide; [congruence|eauto].
Qed.

Lemma decimal_style_cases style :
  style ∈ decimal_styles <->
  style = "currency" \/ style ∈ ["grouped"; "comma"] \/ style ∈ ["rounded"; "round"].
Proof. unfold decimal_styles. rewrite !elem_of_cons, !elem_of_nil. tauto. Qed.

Lemma unpack2_raises parts e :
  unpack2 parts = Raise e -> exists msg, e = ValueError msg.
Proof.
  destruct parts as [|a [|b [|c parts]]]; cbn [unpack2];
    intros [= <-]; eauto.
Qed.

Lemma plain_raises value cfg decimals grouping e :
  format_plain value cfg decimals grouping = Raise e -> exists msg, e = ValueError msg.
Proof.
  unfold format_plain, Host.format_f.
  destruct (Host.precision_field decimals) as [q|e'] eqn:Hq; cbn [bind].
  - match goal with
    | |- context [if Str.contains "." ?n then _ else _] =>
        destruct (Str.contains "." n);
        [destruct (unpack2 (Str.split "." n)) as [[ip fp]|e'] eqn:Hparts|]
    end; cbn [bind]; try discriminate.
    intros [= <-]. by eapply unpack2_raises.
  - intros [= <-]. by eapply precision_field_raises.
Qed.

Lemma currency_raises value cfg decimals e :
  format_currency value cfg decimals = Raise e -> exists msg, e = ValueError msg.
Proof.
  unfold format_currency.
  destruct (format_plain value cfg decimals true) as [base|e'] eqn:Hbase;
    cbn [bind].
  - by destruct (Str.startswith "-" base).
  - intros [= <-]. by eapply plain_raises.
Qed.

Lemma scientific_raises value cfg digits e :
  format_scientific value cfg digits = Raise e -> exists msg, e = ValueError msg.
Proof.
  unfold format_scientific, Host.format_e.
  destruct (Host.precision_field digits) as [q|e'] eqn:Hq; cbn [bind].
  - case_bool_decide; [|discriminate].
    match goal with
    | |- context [unpack2 ?l] => destruct (unpack2 l) as [[m x]|e'] eqn:Hparts
    end; cbn [bind]; [discriminate|].
    intros [= <-]. by eapply unpack2_raises.
  - intros [= <-]. by eapply precision_field_raises.
Qed.

(** every exception that leaves [format_number] is a [ValueError] *)
Lemma format_number_raises value locale style decimals e :
  format_number value locale style decimals = Raise e ->
  exists msg, e = ValueError msg.
Proof.
  unfold format_number.
  destruct (LOCALE_CONFIG !! locale) as [cfg|];
    [|intros [= <-]; unfold unknown_locale; eauto].
  cbv zeta. repeat case_bool_decide.
  - apply currency_raises.
  - apply plain_raises.
  - apply plain_raises.
  - apply scientific_raises.
  - intros [= <-]. unfold unknown_style. eauto.
Qed.

(** a string is returned only under a known locale and a known style *)
Lemma format_number_ok_known value locale style decimals s :
  format_number value locale style decimals = Ok s ->
  is_Some (LOCALE_CONFIG !! locale) /\ Str.lower style ∈ recognized_styles.
Proof.
  intros Hok.
  destruct (LOCALE_CONFIG !! locale) as [cfg|] eqn:Hcfg.
  - split; [by eexists|].
    destruct (decide (Str.lower style ∈ recognized_styles)) as [Hs|Hs]; [done|].
    rewrite (dispatch_unknown_style _ _ cfg) in Hok by done. discriminate.
  - unfold format_number in Hok. rewrite Hcfg in Hok. discriminate.
Qed.

End DispatcherMore.

(** [format_number] returns a string exactly when the locale is a key of the
    registry and either the lower-cased style is one of the five styles that
    take decimals and the decimals are absent or from [0] to [2^31 - 1], or
    it is one of the two scientific names and the value is finite or the
    decimal separator of the locale is the point.  In every other case it
    raises. *)
Theorem format_number_succeeds_iff (value : float) (locale style : string)
    (decimals : option Z) :
  (exists s, format_number value locale style decimals = Ok s)
  <-> exists cfg,
        LOCALE_CONFIG !! locale = Some cfg
        /\ ((Str.lower style ∈ decimal_styles
             /\ forall d, decimals = Some d -> 0 <= d <= Host.INT_MAX)
            \/ (Str.lower style ∈ ["scientific"; "sci"]
                /\ (Host.is_finite value = true \/ decimal_sep cfg = "."))).
Proof.
  split.
  - intros [s Hok].
    destruct (format_number_ok_known _ _ _ _ _ Hok) as [[cfg Hcfg] Hs].
    exists cfg. split; [done|].
    destruct (recognized_cases _ Hs) as [Hc|[Hg|[Hr|Hsci]]].
    + left. split; [apply decimal_style_cases; auto|].
      intros d ->. rewrite (dispatch_currency _ _ cfg) in Hok by done.
      by apply currency_precision_inv in Hok.
    + left. split; [apply decimal_style_cases; auto|].
      intros d ->. rewrite (dispatch_grouped _ _ cfg) in Hok by done.
      by apply plain_precision_inv in Hok.
    + left. split; [apply decimal_style_cases; auto|].
      intros d ->. rewrite (dispatch_rounded _ _ cfg) in Hok by done.
      by apply plain_precision_inv in Hok.
    + right. split; [done|].
      destruct (Host.is_finite value) eqn:Hfin; [by left|right].
      destruct (decide (decimal_sep cfg = ".")) as [|Hsep]; [done|].
      rewrite (dispatch_scientific _ _ cfg) in Hok by done.
      destruct (scientific_not_finite value cfg 3 Hfin
                  ltac:(unfold Host.INT_MAX; lia)) as [_ Hraise].
      rewrite Hraise in Hok by done. discriminate.
  - intros (cfg & Hcfg & [[Hs Hdec]|[Hs Hval]]).
    + assert (forall n, 0 <= n <= Host.INT_MAX ->
                0 <= default n decimals <= Host.INT_MAX) as Hdef.
      { intros n Hn. destruct decimals as [d|]; simpl; [by apply Hdec|done]. }
      apply decimal_style_cases in Hs as [Hc|[Hg|Hr]].
      * rewrite (dispatch_currency _ _ cfg) by done.
        apply format_currency_total, Hdef. unfold Host.INT_MAX. lia.
      * rewrite (dispatch_grouped _ _ cfg) by done.
        apply format_plain_total, Hdef. unfold Host.INT_MAX. lia.
      * rewrite (dispatch_rounded _ _ cfg) by done.
        apply format_plain_total, Hdef. unfold Host.INT_MAX. lia.
    + rewrite (dispatch_scientific _ _ cfg) by done.
      destruct Hval as [Hfin|Hsep].
      * by apply format_scientific_total.
      * by apply scientific_point.
Qed.

(** The style is read without regard to case, and the two names of a style
    are interchangeable: two style strings whose lower-cased forms are equal,
    or are both names of the grouped style, or of the rounded style, or of
    the scientific style, give the same result, or the same error, on every
    value, locale and decimals. *)
Theorem format_number_style_synonyms (value : float)
    (locale style1 style2 : string) (decimals : option Z) :
  Str.lower style1 = Str.lower style2
  \/ (Str.lower style1 ∈ ["grouped"; "comma"]
      /\ Str.lower style2 ∈ ["grouped"; "comma"])
  \/ (Str.lower style1 ∈ ["rounded"; "round"]
      /\ Str.lower style2 ∈ ["rounded"; "round"])
  \/ (Str.lower style1 ∈ ["scientific"; "sci"]
      /\ Str.lower style2 ∈ ["scientific"; "sci"]) ->
  format_number value locale style1 decimals
  = format_number value locale style2 decimals.
Proof.
  intros Hsame.
  destruct (LOCALE_CONFIG !! locale) as [cfg|] eqn:Hcfg.
  - destruct Hsame as [Heq|[[H1 H2]|[[H1 H2]|[H1 H2]]]].
    + unfold format_number. by rewrite Hcfg, Heq.
    + by rewrite !(dispatch_grouped _ _ cfg).
    + by rewrite !(dispatch_rounded _ _ cfg).
    + by rewrite !(dispatch_scientific _ _ cfg).
  - unfold format_number. by rewrite Hcfg.
Qed.

Lemma format_number_style_synonyms_witness :
  format_number Lit.f_1234567 "EU" "COMMA" (Some 1)
  = format_number Lit.f_1234567 "EU" "Grouped" (Some 1).
Proof.
  apply (format_number_style_synonyms Lit.f_1234567 "EU" "COMMA" "Grouped").
  right. left.
  split; rewrite !elem_of_cons; [right; left; reflexivity | left; reflexivity].
Defined.

(** ** The request boundary, continued *)

Section EndpointMore.

(** what the endpoint answers once the four fields are read *)
Lemma endpoint_after_read request value locale style decimals :
  read_request request = inr (value, locale, style, decimals) ->
  format_endpoint request =
    match value with
    | None => Error400 "value is required"
    | Some value =>
        match py_float value with
        | Raise (ValueError _) | Raise (TypeError _) =>
            Error400 "value must be numeric"
        | Raise e => Error500 e
        | Ok value =>
            match format_number value locale style decimals with
            | Raise (ValueError msg) => Error400 msg
            | Raise e => Error500 e
            | Ok formatted => Ok200 value locale style decimals formatted
            end
        end
    end.
Proof. intros Hreq. unfold format_endpoint. by rewrite Hreq. Qed.

Lemma read_request_early request early :
  read_request request = inl early -> early = Error400 "decimals must be an integer".
Proof.
  destruct request as [value locale style decimals|data]; [discriminate|].
  cbn [read_request].
  destruct (j_decimals (default empty_body data)) as [[n|d]|]; try discriminate.
  destruct (Parse.int_of_str d); [discriminate|]. by intros [= <-].
Qed.

Lemma float_of_int_raises n e :
  Parse.float_of_int n = Raise e ->
  e = OverflowError "int too large to convert to float".
Proof.
  unfold Parse.float_of_int.
  destruct (Parse.binary64_of_ratio (n <? 0) (Z.abs n) 1);
    try discriminate. by intros [= <-].
Qed.

Lemma py_float_raises value e :
  py_float value = Raise e ->
  (exists msg, e = ValueError msg) \/ (exists msg, e = TypeError msg)
  \/ (exists n, value = PyInt n /\ Parse.float_of_int n = Raise e).
Proof.
  destruct value as [s|x|n|b|]; cbn [py_float].
  - intros Hraise. left. by eapply float_of_str_raises.
  - discriminate.
  - intros Hraise. right. right. eauto.
  - destruct b; intros Hb; vm_compute in Hb; discriminate.
  - intros [= <-]. right. left. eauto.
Qed.

End EndpointMore.

(** A successful answer is sound: when the endpoint answers with a
    formatted string, the request carried a value that the host converts to
    the float that is echoed, the echoed locale is a key of the registry, the
    echoed style (as it was sent, not lower-cased) is a known style name up
    to case, and the string is what [format_number] returns on the echoed
    float, locale, style and decimals. *)
Theorem format_endpoint_success_sound (request : request) (x : float)
    (locale style : string) (decimals : option Z) (formatted : string) :
  format_endpoint request = Ok200 x locale style decimals formatted ->
  (exists value,
     read_request request = inr (Some value, locale, style, decimals)
     /\ py_float value = Ok x)
  /\ format_number x locale style decimals = Ok formatted
  /\ is_Some (LOCALE_CONFIG !! locale)
  /\ Str.lower style ∈ recognized_styles.
Proof.
  intros Hresp.
  destruct (read_request request) as [early|[[[value l] s] d]] eqn:Hreq.
  { unfold format_endpoint in Hresp. rewrite Hreq in Hresp.
    apply read_request_early in Hreq. subst. discriminate. }
  rewrite (endpoint_after_read _ _ _ _ _ Hreq) in Hresp.
  destruct value as [value|]; [|discriminate].
  destruct (py_float value) as [x'|[msg|msg|msg]] eqn:Hval; try discriminate.
  destruct (format_number x' l s d) as [f|[msg|msg|msg]] eqn:Hnum;
    try discriminate.
  injection Hresp as -> -> -> -> ->.
  split; [by eauto|]. split; [done|]. by eapply format_number_ok_known.
Qed.

Lemma format_endpoint_success_sound_witness :
  format_number Lit.f_1234_5 "EU" "Currency" None = Ok "1.234,50 €"
  /\ is_Some (LOCALE_CONFIG !! "EU")
  /\ Str.lower "Currency" ∈ recognized_styles.
Proof.
  apply (format_endpoint_success_sound
           (GET (Some "1234.5") (Some "EU") (Some "Currency") None)
           Lit.f_1234_5 "EU" "Currency" None "1.234,50 €").
  vm_compute. reflexivity.
Defined.

(** For requests whose fields have the JSON types the endpoint expects, the
    only exception that escapes it is the [OverflowError] of [float] on a
    JSON integer too large for a float; a [GET] request, and a [POST]
    request whose value is text, a float or a boolean, always gets an answer
    from the endpoint itself. *)
Theorem format_endpoint_server_error (request : request) (e : exn) :
  format_endpoint request = Error500 e ->
  exists body n,
    request = POST (Some body)
    /\ j_value body = Some (PyInt n)
    /\ Parse.float_of_int n = Raise e
    /\ e = OverflowError "int too large to convert to float".
Proof.
  intros Hresp.
  destruct (read_request request) as [early|[[[value l] s] d]] eqn:Hreq.
  { unfold format_endpoint in Hresp. rewrite Hreq in Hresp.
    apply read_request_early in Hreq. subst. discriminate. }
  rewrite (endpoint_after_read _ _ _ _ _ Hreq) in Hresp.
  destruct value as [value|]; [|discriminate].
  destruct (py_float value) as [x|e'] eqn:Hval.
  - destruct (format_number x l s d) as [f|e''] eqn:Hnum; [discriminate|].
    destruct (format_number_raises _ _ _ _ _ Hnum) as [msg ->]. discriminate.
  - destruct (py_float_raises _ _ Hval) as [[msg ->]|[[msg ->]|(n & -> & Hn)]];
      try discriminate.
    pose proof (float_of_int_raises _ _ Hn) as ->. injection Hresp as <-.
    destruct request as [v lo st de|[body|]].
    + cbn [read_request] in Hreq. destruct v; discriminate.
    + exists body, n. split; [done|].
      revert Hreq. cbn [read_request].
      change (default empty_body (Some body)) with body.
      destruct (j_decimals body) as [[k|t]|];
        [| destruct (Parse.int_of_str t); [|by intros [=]] |];
        intros [= Hv _ _ _]; auto.
    + revert Hreq. cbn [read_request].
      change (default empty_body None) with empty_body.
      by intros [=].
Qed.

Lemma format_endpoint_server_error_witness :
  exists body n,
    POST (Some {| j_value := Some (PyInt (2 ^ 1024)); j_locale := None;
                  j_style := None; j_decimals := None |}) = POST (Some body)
    /\ j_value body = Some (PyInt n)
    /\ Parse.float_of_int n
       = Raise (OverflowError "int too large to convert to float")
    /\ OverflowError "int too large to convert to float"
       = OverflowError "int too large to convert to float".
Proof.
  apply (format_endpoint_server_error
           (POST (Some {| j_value := Some (PyInt (2 ^ 1024)); j_locale := None;
                          j_style := None; j_decimals := None |}))).
  vm_compute. reflexivity.
Defined.

(** The two request methods treat a [decimals] text that [int] does not
    convert (a text of ASCII characters that is not an integer numeral, or
    one of more than 4300 digits) differently: a [GET] request drops it and
    answers as if no decimals had been sent, while a [POST] request is
    answered with [InvalidDecimals] whatever its other fields are, even when
    the value is missing. *)
Theorem decimals_text_not_integer (value locale style : option string)
    (body : json_body) (d : string) (e : exn) :
  Str.is_ascii d = true ->
  Parse.int_of_str d = Raise e ->
  format_endpoint (GET value locale style (Some d))
  = format_endpoint (GET value locale style None)
  /\ (j_decimals body = Some (DecStr d) ->
      format_endpoint (POST (Some body)) = InvalidDecimals).
Proof.
  intros _ Hd. split.
  - unfold format_endpoint. cbn [read_request mbind option_bind].
    by rewrite Hd.
  - intros Hbody. unfold format_endpoint. cbn [read_request].
    change (default empty_body (Some body)) with body.
    by rewrite Hbody, Hd.
Qed.

Lemma decimals_text_not_integer_witness :
  format_endpoint (GET (Some "1234.5") None None (Some "2.0"))
  = format_endpoint (GET (Some "1234.5") None None None)
  /\ format_endpoint
       (POST (Some {| j_value := Some (PyStr "1234.5"); j_locale := None;
                      j_style := None; j_decimals := Some (DecStr "2.0") |}))
     = InvalidDecimals.
Proof.
  pose proof (decimals_text_not_integer (Some "1234.5") None None
                {| j_value := Some (PyStr "1234.5"); j_locale := None;
                   j_style := None; j_decimals := Some (DecStr "2.0") |}
                "2.0" (ValueError "invalid literal for int() with base 10")
                eq_refl eq_refl) as [Hget Hpost].
  split; [exact Hget | exact (Hpost eq_refl)].
Defined.

(** A [POST] request whose fields are all text is answered like the [GET]
    request with the same texts, provided the decimals text, if there is
    one, is an integer; and decimals sent as a JSON integer are treated like
    the text that [int] converts to it. *)
Theorem post_agrees_with_get (value locale style decimals : option string) :
  (forall d, decimals = Some d -> exists n, Parse.int_of_str d = Ok n) ->
  format_endpoint
    (POST (Some {| j_value := PyStr <$> value; j_locale := locale;
                   j_style := style; j_decimals := DecStr <$> decimals |}))
  = format_endpoint (GET value locale style decimals)
  /\ forall d n, decimals = Some d -> Parse.int_of_str d = Ok n ->
       format_endpoint
         (POST (Some {| j_value := PyStr <$> value; j_locale := locale;
                        j_style := style; j_decimals := Some (DecInt n) |}))
       = format_endpoint (GET value locale style decimals).
Proof.
  intros Hdec. unfold format_endpoint. cbn [read_request].
  split.
  - destruct decimals as [d|]; [|reflexivity].
    destruct (Hdec d eq_refl) as [n Hn].
    cbn [fmap option_fmap option_map j_decimals mbind option_bind default
         from_option id j_value j_locale j_style].
    by rewrite Hn.
  - intros d n -> Hn.
    cbn [fmap option_fmap option_map j_decimals mbind option_bind default
         from_option id j_value j_locale j_style].
    by rewrite Hn.
Qed.

Lemma post_agrees_with_get_witness :
  format_endpoint
    (POST (Some {| j_value := Some (PyStr "-42"); j_locale := Some "UK";
                   j_style := Some "round"; j_decimals := Some (DecStr " 1 ") |}))
  = format_endpoint (GET (Some "-42") (Some "UK") (Some "round") (Some " 1 ")).
Proof.
  refine (proj1 (post_agrees_with_get (Some "-42") (Some "UK") (Some "round")
                   (Some " 1 ") _)).
  intros d [= <-]. exists 1. vm_compute. reflexivity.
Defined.

(** An unknown locale or style is reported to the client with the message
    of the dispatcher: once the value is converted, a locale that is not a
    key of the registry is answered with ["Unknown locale: "] followed by
    the locale as it was sent, and under a known locale a style of ASCII
    characters that is not known with ["Unknown style: "] followed by the
    style in lower case. *)
Theorem unknown_locale_or_style_reported (request : request) (value : py_obj)
    (x : float) (locale style : string) (decimals : option Z) :
  read_request request = inr (Some value, locale, style, decimals) ->
  py_float value = Ok x ->
  (LOCALE_CONFIG !! locale = None ->
   format_endpoint request = Error400 ("Unknown locale: " +:+ locale))
  /\ (Str.is_ascii style = true ->
      is_Some (LOCALE_CONFIG !! locale) ->
      Str.lower style ∉ recognized_styles ->
      format_endpoint request
      = Error400 ("Unknown style: " +:+ Str.lower style)).
Proof.
  intros Hreq Hval.
  rewrite (endpoint_after_read _ _ _ _ _ Hreq), Hval. split.
  - intros Hcfg. unfold format_number. by rewrite Hcfg.
  - intros _ [cfg Hcfg] Hs. by rewrite (dispatch_unknown_style _ _ cfg).
Qed.

Lemma unknown_locale_or_style_reported_witness :
  format_endpoint (GET (Some "5") (Some "us") (Some "Bogus") None)
  = Error400 "Unknown locale: us".
Proof.
  refine (proj1 (unknown_locale_or_style_reported
                   (GET (Some "5") (Some "us") (Some "Bogus") None)
                   (PyStr "5") Lit.f_5 "us" "Bogus" None _ _) _);
    vm_compute; reflexivity.
Defined.

Example unknown_style_reported_lowercase :
  format_endpoint (GET (Some "5") (Some "US") (Some "Bogus") None)
  = Error400 "Unknown style: bogus".
Proof. vm_compute. reflexivity. Qed.

(** ** The listed locales *)

Section Listed.

Lemma unpack2_not_unknown_locale parts e locale :
  unpack2 parts = Raise e -> e <> unknown_locale locale.
Proof.
  unfold unknown_locale.
  destruct parts as [|a [|b [|c parts]]]; cbn [unpack2];
    intros [= <-]; str_simpl; congruence.
Qed.

Lemma precision_not_unknown_locale p e locale :
  Host.precision_field p = Raise e -> e <> unknown_locale locale.
Proof.
  unfold Host.precision_field, Host.missing_precision, unknown_locale.
  repeat match goal with
         | |- context [if ?b then _ else _] => destruct b
         end; intros [= <-]; str_simpl; congruence.
Qed.

Lemma plain_not_unknown_locale value cfg decimals grouping e locale :
  format_plain value cfg decimals grouping = Raise e -> e <> unknown_locale locale.
Proof.
  unfold format_plain, Host.format_f.
  destruct (Host.precision_field decimals) as [q|e'] eqn:Hq; cbn [bind].
  - match goal with
    | |- context [if Str.contains "." ?n then _ else _] =>
        destruct (Str.contains "." n);
        [destruct (unpack2 (Str.split "." n)) as [[ip fp]|e'] eqn:Hparts|]
    end; cbn [bind]; try discriminate.
    intros [= <-]. by eapply unpack2_not_unknown_locale.
  - intros [= <-]. by eapply precision_not_unknown_locale.
Qed.

Lemma currency_not_unknown_locale value cfg decimals e locale :
  format_currency value cfg decimals = Raise e -> e <> unknown_locale locale.
Proof.
  unfold format_currency.
  destruct (format_plain value cfg decimals true) as [base|e'] eqn:Hbase;
    cbn [bind].
  - by destruct (Str.startswith "-" base).
  - intros [= <-]. by eapply plain_not_unknown_locale.
Qed.

Lemma scientific_not_unknown_locale value cfg digits e locale :
  format_scientific value cfg digits = Raise e -> e <> unknown_locale locale.
Proof.
  unfold format_scientific, Host.format_e.
  destruct (Host.precision_field digits) as [q|e'] eqn:Hq; cbn [bind].
  - case_bool_decide; [|discriminate].
    match goal with
    | |- context [unpack2 ?l] => destruct (unpack2 l) as [[m x]|e'] eqn:Hparts
    end; cbn [bind]; [discriminate|].
    intros [= <-]. by eapply unpack2_not_unknown_locale.
  - intros [= <-]. by eapply precision_not_unknown_locale.
Qed.

End Listed.

(** The locales that [list_locales] returns are exactly those that the
    dispatcher accepts: on every value, style and decimals, [format_number]
    raises the unknown-locale error exactly when the locale is not in the
    list; and no locale is listed twice. *)
Theorem unknown_locale_iff_not_listed (value : float) (locale style : string)
    (decimals : option Z) :
  (format_number value locale style decimals = Raise (unknown_locale locale)
   <-> locale ∉ list_locales)
  /\ NoDup list_locales.
Proof.
  split.
  - rewrite <- locale_keys. split.
    + intros Hraise [cfg Hcfg]. revert Hraise.
      unfold format_number. rewrite Hcfg. cbv zeta.
      repeat case_bool_decide; intros Hraise.
      * by eapply currency_not_unknown_locale.
      * by eapply plain_not_unknown_locale.
      * by eapply plain_not_unknown_locale.
      * by eapply scientific_not_unknown_locale.
      * apply (errors_differ locale (Str.lower style)). congruence.
    + intros Hnone. unfold format_number.
      destruct (LOCALE_CONFIG !! locale) as [cfg|]; [|done].
      exfalso. apply Hnone. by eexists.
  - unfold list_locales. compute_done.
Qed.

(** With an empty separator the grouping returns its input. *)
Theorem group_thousands_empty_separator (integer_part : string) :
  group_thousands integer_part "" = integer_part.
Proof.
  destruct (decide (String.length integer_part <= 3)%nat) as [Hle|Hgt].
  - unfold group_thousands.
    by destruct (Nat.leb_spec (String.length integer_part) 3) as [_|?]; [|lia].
  - destruct (group_thousands_structure integer_part "" ltac:(lia))
      as (first & rest & Hs & _ & _ & _ & ->). by rewrite <- Hs.
Qed.
